(** * Web analytics connectors: GA4 and Similarweb

    A shallow embedding of [web_analytics_connector.py].  The two connector
    classes become two modules of functions over an explicit [self] record.
    Calls that leave the file ([_make_request] and [_validate_data] of the
    base connector, [pd.to_datetime]) are events of a small free monad, so a
    method is a tree that says which calls it issues, with which arguments
    and in which order; everything else (dictionaries, list indexing,
    [float], the construction of the table) is computed. *)

From Stdlib Require Import ZArith List String Ascii Bool Lia QArith Qabs.
From Stdlib Require Import Floats.SpecFloat.
Import ListNotations.

Set Warnings "-register-all".

Close Scope Q_scope.
Open Scope string_scope.
Open Scope list_scope.

(** ** Exceptions and the result of a pure computation *)

(** The Python exceptions the connectors can raise themselves, and the three
    error classes of the collaborators.  [Unmodelled] is not a Python
    exception: it marks the runs this development does not follow (a column
    label that is a number, [None] or a boolean; a table built from anything
    but a list of dictionaries).  No theorem below claims a table on such a
    run. *)
Inductive exn : Type :=
| KeyError (key : string)
| IndexError
| ValueError
| TypeError
| AttributeError
| OverflowError
| TransportError
| ApiError (status : Z) (body : string)
| ValidationError
| Unmodelled.

Inductive result (A : Type) : Type :=
| Ok (a : A)
| Err (e : exn).

Arguments Ok {A} a.
Arguments Err {A} e.

Definition rbind {A B : Type} (r : result A) (f : A -> result B) : result B :=
  match r with
  | Ok a => f a
  | Err e => Err e
  end.

Declare Scope result_scope.
Delimit Scope result_scope with result.
Notation "x <- r ;; k" := (rbind r (fun x => k))
  (at level 61, r at next level, right associativity) : result_scope.

(** [[f(x) for x in l]]: the elements are evaluated left to right and the
    first exception ends the comprehension. *)
Fixpoint mapM {A B : Type} (f : A -> result B) (l : list A) : result (list B) :=
  match l with
  | [] => Ok []
  | a :: l' =>
      (b <- f a ;;
       bs <- mapM f l' ;;
       Ok (b :: bs))%result
  end.

(** ** Binary64 *)

Module Float64.

Definition prec : Z := 53.
Definition emax : Z := 1024.

Definition float : Type := spec_float.

Definition nan : float := S754_nan.

(** The integer [z], rounded to nearest, ties to even. *)
Definition of_Z (z : Z) : float := binary_normalize prec emax z 0 false.

(** [(-1)^neg * m * 10^e] for [m >= 0], rounded to nearest, ties to even:
    an integer is rounded as it is, a proper fraction is the correctly
    rounded quotient of two integers. *)
Definition of_decimal (neg : bool) (m : Z) (e : Z) : float :=
  match m with
  | Zpos p =>
      if (0 <=? e)%Z
      then binary_round prec emax neg (p * Z.to_pos (10 ^ e)) 0
      else SFdiv prec emax (S754_finite neg p 0)
                 (S754_finite false (Z.to_pos (10 ^ (- e))) 0)
  | _ => S754_zero neg
  end.

(** The rational a finite float stands for, in lowest terms. *)
Definition to_Q (x : float) : option Q :=
  match x with
  | S754_zero _ => Some 0%Q
  | S754_finite s m e =>
      let n := if s then Zneg m else Zpos m in
      Some (Qred (if (0 <=? e)%Z
                  then Qmake (n * 2 ^ e) 1
                  else Qmake n (Z.to_pos (2 ^ (- e)))))
  | _ => None
  end.

(** [x] is a normal binary64 number less than half a unit in the last
    place away from [q] (and, where the spacing halves below a power of
    two, not above [q] in magnitude): the one double a correctly rounding
    conversion of [q] returns. *)
Definition nearest_normal (q : Q) (x : float) : Prop :=
  match x with
  | S754_finite s m e =>
      bounded prec emax m e = true /\
      Zpos (digits2_pos m) = prec /\
      match to_Q x with
      | Some v =>
          let half_ulp :=
            if (1 <=? e)%Z then Qmake (2 ^ (e - 1)) 1
            else Qmake 1 (Z.to_pos (2 ^ (1 - e))) in
          (Qabs (v - q) < half_ulp)%Q /\
          (Zpos m = (2 ^ (prec - 1))%Z -> (Qabs v <= Qabs q)%Q)
      | None => False
      end
  | _ => False
  end.

End Float64.

(** ** Python values *)

(** A decoded JSON document and the objects the connectors build from it.
    A character of a string is a code point below 256; a dictionary is the
    list of its items in insertion order, with string keys. *)
Inductive pyval : Type :=
| PNone
| PBool (b : bool)
| PInt (z : Z)
| PFloat (f : Float64.float)
| PStr (s : string)
| PList (l : list pyval)
| PDict (d : list (string * pyval)).

Definition dict : Type := list (string * pyval).

Module Py.

(** [d.get(k)] on the items of a dictionary. *)
Fixpoint dict_get {V : Type} (k : string) (d : list (string * V)) : option V :=
  match d with
  | [] => None
  | (k', v) :: d' => if String.eqb k k' then Some v else dict_get k d'
  end.

(** [d[k] = v]: an existing key keeps its place, a new key goes last. *)
Fixpoint dict_set {V : Type} (k : string) (v : V) (d : list (string * V))
  : list (string * V) :=
  match d with
  | [] => [(k, v)]
  | (k', v') :: d' =>
      if String.eqb k k' then (k', v) :: d' else (k', v') :: dict_set k v d'
  end.

Definition keys {V : Type} (d : list (string * V)) : list string := map fst d.

Definition mem (k : string) (l : list string) : bool :=
  existsb (String.eqb k) l.

Fixpoint is_substring (p s : string) : bool :=
  String.prefix p s ||
  match s with
  | EmptyString => false
  | String _ s' => is_substring p s'
  end.

Definition str_eq (k : string) (o : pyval) : bool :=
  match o with
  | PStr s => String.eqb k s
  | _ => false
  end.

Fixpoint chars (s : string) : list pyval :=
  match s with
  | EmptyString => []
  | String c s' => PStr (String c EmptyString) :: chars s'
  end.

(** [k in o] for a string [k]: a key of a dictionary, an element of a
    list, a substring of a string; the other values are not containers. *)
Definition contains (k : string) (o : pyval) : result bool :=
  match o with
  | PDict d => Ok (mem k (keys d))
  | PList l => Ok (existsb (str_eq k) l)
  | PStr s => Ok (is_substring k s)
  | _ => Err TypeError
  end.

(** [o[k]] for a string [k]. *)
Definition getitem (o : pyval) (k : string) : result pyval :=
  match o with
  | PDict d =>
      match dict_get k d with
      | Some v => Ok v
      | None => Err (KeyError k)
      end
  | _ => Err TypeError
  end.

(** [o.get(k, default)]: only a dictionary has the method. *)
Definition get (o : pyval) (k : string) (default : pyval) : result pyval :=
  match o with
  | PDict d =>
      match dict_get k d with
      | Some v => Ok v
      | None => Ok default
      end
  | _ => Err AttributeError
  end.

(** The elements a [for] loop, a comprehension or [enumerate] draws. *)
Definition iter (o : pyval) : result (list pyval) :=
  match o with
  | PList l => Ok l
  | PDict d => Ok (map PStr (keys d))
  | PStr s => Ok (chars s)
  | _ => Err TypeError
  end.

(** [l[i]] on a list, for an index that [enumerate] produced. *)
Definition list_getitem (l : list pyval) (i : nat) : result pyval :=
  match nth_error l i with
  | Some v => Ok v
  | None => Err IndexError
  end.

(** The key under which [row_data[h] = ...] stores: lists and
    dictionaries are unhashable. *)
Definition hashable_key (h : pyval) : result string :=
  match h with
  | PStr s => Ok s
  | PList _ | PDict _ => Err TypeError
  | _ => Err Unmodelled
  end.

(** *** [float] *)

Definition code (c : ascii) : N := N_of_ascii c.

Definition is_digit (c : ascii) : bool :=
  ((48 <=? code c) && (code c <=? 57))%N.

Definition digit (c : ascii) : Z := Z.of_N (code c - 48).

(** Blank, tab, line feed, vertical tab, form feed and carriage return;
    NEL and the no-break space are turned into blanks before the number is
    read. *)
Definition is_space (c : ascii) : bool :=
  (((9 <=? code c) && (code c <=? 13)) || (code c =? 32)
   || (code c =? 133) || (code c =? 160))%N.

Definition is_underscore (c : ascii) : bool := (code c =? 95)%N.

Definition lower (c : ascii) : ascii :=
  if ((65 <=? code c) && (code c <=? 90))%N
  then ascii_of_N (code c + 32) else c.

Fixpoint lstrip (l : list ascii) : list ascii :=
  match l with
  | c :: l' => if is_space c then lstrip l' else l
  | [] => []
  end.

Definition strip (l : list ascii) : list ascii :=
  rev (lstrip (rev (lstrip l))).

(** An underscore is accepted between two digits only, and dropped. *)
Fixpoint drop_underscores (prev : ascii) (l : list ascii)
  : option (list ascii) :=
  match l with
  | [] => if is_underscore prev then None else Some []
  | c :: l' =>
      if is_underscore c
      then (if is_digit prev then drop_underscores c l' else None)
      else if is_underscore prev && negb (is_digit c) then None
      else option_map (cons c) (drop_underscores c l')
  end.

Fixpoint span_digits (l : list ascii) : list ascii * list ascii :=
  match l with
  | c :: l' =>
      if is_digit c
      then let (ds, r) := span_digits l' in (c :: ds, r)
      else ([], l)
  | [] => ([], [])
  end.

Definition digits_value (ds : list ascii) : Z :=
  fold_left (fun acc c => 10 * acc + digit c)%Z ds 0%Z.

Definition sign (l : list ascii) : bool * list ascii :=
  match l with
  | c :: r =>
      if (code c =? 45)%N then (true, r)
      else if (code c =? 43)%N then (false, r)
      else (false, l)
  | [] => (false, [])
  end.

(** [sign] digits [. digits] [(e|E) [sign] digits], with a digit before or
    after the point, and nothing left over. *)
Definition parse_decimal (l : list ascii) : option Float64.float :=
  let (neg, l1) := sign l in
  let (ip, l2) := span_digits l1 in
  let (fp, l3) :=
    match l2 with
    | c :: r => if (code c =? 46)%N then span_digits r else ([], l2)
    | [] => ([], l2)
    end in
  match ip ++ fp with
  | [] => None
  | ds =>
      let m := digits_value ds in
      let shift := Z.of_nat (List.length fp) in
      match l3 with
      | [] => Some (Float64.of_decimal neg m (- shift))
      | c :: r =>
          if (code (lower c) =? 101)%N
          then
            let (eneg, r1) := sign r in
            let (ed, r2) := span_digits r1 in
            match ed, r2 with
            | _ :: _, [] =>
                let e := digits_value ed in
                Some (Float64.of_decimal neg m
                        ((if eneg then - e else e) - shift))
            | _, _ => None
            end
          else None
      end
  end.

(** [sign] inf | infinity | nan, in any case. *)
Definition parse_inf_nan (l : list ascii) : option Float64.float :=
  let (neg, r) := sign l in
  let w := string_of_list_ascii (map lower r) in
  if String.eqb w "inf" || String.eqb w "infinity"
  then Some (S754_infinity neg)
  else if String.eqb w "nan" then Some Float64.nan
  else None.

Definition float_of_str (s : string) : result Float64.float :=
  match drop_underscores zero (strip (list_ascii_of_string s)) with
  | None => Err ValueError
  | Some l =>
      match parse_decimal l with
      | Some x => Ok x
      | None =>
          match parse_inf_nan l with
          | Some x => Ok x
          | None => Err ValueError
          end
      end
  end.

(** [float(o)]: a string is parsed, a number is converted, anything else
    is a [TypeError]. *)
Definition float (o : pyval) : result Float64.float :=
  match o with
  | PStr s => float_of_str s
  | PFloat f => Ok f
  | PInt z =>
      match Float64.of_Z z with
      | S754_infinity _ => Err OverflowError
      | x => Ok x
      end
  | PBool b => Ok (Float64.of_Z (if b then 1 else 0))
  | _ => Err TypeError
  end.

End Py.

(** ** Tables *)

(** A [pandas.DataFrame] over a default index: the number of rows and the
    columns in order, each as long as the index.  A cell holds the Python
    object it was built from; the numeric type pandas picks for a column is
    not followed. *)
Record DataFrame : Type := {
  index : nat;
  columns : list (string * list pyval)
}.

Module pd.

(** [pd.DataFrame()] *)
Definition empty : DataFrame := {| index := 0; columns := [] |}.

Definition add_key (acc : list string) (k : string) : list string :=
  if Py.mem k acc then acc else acc ++ [k].

(** The keys of the records, each at its first appearance. *)
Definition union_keys (records : list dict) : list string :=
  fold_left (fun acc d => fold_left add_key (Py.keys d) acc) records [].

(** The cell of a record under a label: a missing key reads NaN. *)
Definition cell (k : string) (d : dict) : pyval :=
  match Py.dict_get k d with
  | Some v => v
  | None => PFloat Float64.nan
  end.

(** [pd.DataFrame(records)] for a list of dictionaries. *)
Definition of_records (records : list dict) : DataFrame :=
  {| index := List.length records;
     columns := map (fun k => (k, map (cell k) records)) (union_keys records) |}.

Definition labels (df : DataFrame) : list string :=
  Py.keys (columns df).

(** [len(df)] *)
Definition len (df : DataFrame) : nat := index df.

(** [k in df.columns] *)
Definition has_column (k : string) (df : DataFrame) : bool :=
  Py.mem k (labels df).

(** [df[k]] *)
Definition getitem (df : DataFrame) (k : string) : result (list pyval) :=
  match Py.dict_get k (columns df) with
  | Some col => Ok col
  | None => Err (KeyError k)
  end.

(** [df[k] = v] for a scalar [v]: the column is [v] on every row. *)
Definition setitem_scalar (df : DataFrame) (k : string) (v : pyval)
  : DataFrame :=
  {| index := index df;
     columns := Py.dict_set k (repeat v (index df)) (columns df) |}.

(** The values of a series over the index of a table: what lies beyond
    the index is dropped, what is missing reads NaN. *)
Definition align (n : nat) (col : list pyval) : list pyval :=
  firstn n col ++ repeat (PFloat Float64.nan) (n - List.length col).

(** [df[k] = series] *)
Definition setitem_series (df : DataFrame) (k : string) (col : list pyval)
  : DataFrame :=
  {| index := index df;
     columns := Py.dict_set k (align (index df) col) (columns df) |}.

(** Row [i] as the dictionary of its cells, in column order. *)
Definition row (df : DataFrame) (i : nat) : dict :=
  map (fun c => (fst c, nth i (snd c) (PFloat Float64.nan))) (columns df).

(** [df.to_dict('records')] *)
Definition records (df : DataFrame) : list dict :=
  map (row df) (seq 0 (index df)).

Fixpoint as_records (l : list pyval) : option (list dict) :=
  match l with
  | [] => Some []
  | PDict d :: l' => option_map (cons d) (as_records l')
  | _ :: _ => None
  end.

(** [pd.DataFrame(data)] *)
Definition DataFrame (data : pyval) : result DataFrame :=
  match data with
  | PList l =>
      match as_records l with
      | Some records => Ok (of_records records)
      | None => Err Unmodelled
      end
  | _ => Err Unmodelled
  end.

End pd.

(** ** Calls that leave the module *)

(** The three operations the connectors call and do not define:
    [self._make_request(endpoint, *args, **kwargs)] and
    [self._validate_data(df)] of [BaseDataConnector], and
    [pd.to_datetime(series)]. *)
Inductive call : Type -> Type :=
| _make_request (endpoint : string) (args : list pyval) (kwargs : dict)
  : call pyval
| to_datetime (arg : list pyval) : call (list pyval)
| _validate_data (df : DataFrame) : call DataFrame.

(** A method body: it returns, raises, or issues a call and goes on with
    the answer. *)
Inductive prog (A : Type) : Type :=
| Ret (a : A)
| Raise (e : exn)
| Vis {X : Type} (c : call X) (k : X -> prog A).

Arguments Ret {A} a.
Arguments Raise {A} e.
Arguments Vis {A X} c k.

Fixpoint bind {A B : Type} (p : prog A) (f : A -> prog B) : prog B :=
  match p with
  | Ret a => f a
  | Raise e => Raise e
  | Vis c k => Vis c (fun x => bind (k x) f)
  end.

Definition trigger {X : Type} (c : call X) : prog X := Vis c Ret.

Definition lift {A : Type} (r : result A) : prog A :=
  match r with
  | Ok a => Ret a
  | Err e => Raise e
  end.

Declare Scope prog_scope.
Delimit Scope prog_scope with prog.
Notation "x <- p ;; k" := (bind p (fun x => k))
  (at level 61, p at next level, right associativity) : prog_scope.

(** What stands behind the calls on one run: a call answers or raises
    ([TransportError] or [ApiError] for a request, [ValidationError] for the
    validation, whatever the date parser raises). *)
Record collaborators : Type := {
  make_request : string -> list pyval -> dict -> result pyval;
  parse_dates : list pyval -> result (list pyval);
  validate_data : DataFrame -> result DataFrame
}.

Definition answer (w : collaborators) {X : Type} (c : call X) : result X :=
  match c with
  | _make_request endpoint args kwargs => make_request w endpoint args kwargs
  | to_datetime arg => parse_dates w arg
  | _validate_data df => validate_data w df
  end.

(** The outcome of a method against given collaborators: an exception of a
    call propagates to the caller. *)
Fixpoint run (w : collaborators) {A : Type} (p : prog A) : result A :=
  match p with
  | Ret a => Ok a
  | Raise e => Err e
  | Vis c k =>
      match answer w c with
      | Ok x => run w (k x)
      | Err e => Err e
      end
  end.

(** The calls a method issues against given collaborators, in order. *)
Inductive issued : Type :=
| Issued {X : Type} (c : call X).

Fixpoint trace (w : collaborators) {A : Type} (p : prog A) : list issued :=
  match p with
  | Ret _ | Raise _ => []
  | Vis c k =>
      Issued c ::
      match answer w c with
      | Ok x => trace w (k x)
      | Err _ => []
      end
  end.

(** An argument with a default: [None] when the caller leaves it out. *)
Definition default {A : Type} (d : A) (arg : option A) : A :=
  match arg with
  | Some a => a
  | None => d
  end.

(** ** GoogleAnalyticsConnector *)

Module GoogleAnalyticsConnector.

Record t : Type := {
  api_key : string;
  base_url : string;
  rate_limit_requests : Z;
  rate_limit_window : Z;
  property_id : string
}.

Definition __init__ (access_token property_id : string) : t :=
  {| api_key := access_token;
     base_url := "https://analyticsdata.googleapis.com/v1beta";
     rate_limit_requests := 100;
     rate_limit_window := 100;
     property_id := property_id |}.

(** Lines 29-33.  [super_headers] is the dictionary
    [super()._get_headers()] returned. *)
Definition _get_headers (self : t) (super_headers : list (string * string))
  : list (string * string) :=
  let headers := super_headers in
  Py.dict_set "Authorization" ("Bearer " ++ api_key self)%string headers.

Definition descriptor (name type description : string) : dict :=
  [("name", PStr name); ("type", PStr type);
   ("description", PStr description)].

Definition get_available_datasets (self : t) : prog (list dict) :=
  Ret [ descriptor "sessions" "metric" "Total number of sessions";
        descriptor "users" "metric" "Total number of users";
        descriptor "pageviews" "metric" "Total number of pageviews";
        descriptor "bounceRate" "metric" "Bounce rate percentage";
        descriptor "sessionDuration" "metric" "Average session duration";
        descriptor "date" "dimension" "Date dimension";
        descriptor "country" "dimension" "Country dimension";
        descriptor "deviceCategory" "dimension" "Device category";
        descriptor "source" "dimension" "Traffic source";
        descriptor "medium" "dimension" "Traffic medium" ].

Definition named (name : string) : pyval := PDict [("name", PStr name)].

(** [request_body], lines 74-78. *)
Definition request_body (metrics dimensions : list string)
           (start_date end_date : string) : pyval :=
  PDict [ ("dateRanges",
           PList [PDict [("startDate", PStr start_date);
                         ("endDate", PStr end_date)]]);
          ("metrics", PList (map named metrics));
          ("dimensions", PList (map named dimensions)) ].

Definition endpoint (self : t) : string :=
  ("properties/" ++ property_id self ++ ":runReport")%string.

(** [[h['name'] for h in response.get(field, [])]], lines 88-89. *)
Definition header_names (response : pyval) (field : string)
  : result (list pyval) :=
  (headers <- Py.get response field (PList []) ;;
   hs <- Py.iter headers ;;
   mapM (fun h => Py.getitem h "name") hs)%result.

(** The loop of lines 97-98 from index [i] on.  The right-hand side of
    the assignment is evaluated before the subscript of its target. *)
Fixpoint add_dimensions (dimension_headers : list pyval) (i : nat)
         (values : list pyval) (row_data : dict) : result dict :=
  match values with
  | [] => Ok row_data
  | dim_value :: rest =>
      (v <- Py.getitem dim_value "value" ;;
       h <- Py.list_getitem dimension_headers i ;;
       k <- Py.hashable_key h ;;
       add_dimensions dimension_headers (S i) rest (Py.dict_set k v row_data))%result
  end.

(** The loop of lines 101-102 from index [i] on. *)
Fixpoint add_metrics (metric_headers : list pyval) (i : nat)
         (values : list pyval) (row_data : dict) : result dict :=
  match values with
  | [] => Ok row_data
  | met_value :: rest =>
      (v <- Py.getitem met_value "value" ;;
       x <- Py.float v ;;
       h <- Py.list_getitem metric_headers i ;;
       k <- Py.hashable_key h ;;
       add_metrics metric_headers (S i) rest
                   (Py.dict_set k (PFloat x) row_data))%result
  end.

(** One turn of the loop of line 93: the dictionary appended for [row]. *)
Definition flatten_row (dimension_headers metric_headers : list pyval)
           (row : pyval) : result dict :=
  (dimension_values <- Py.get row "dimensionValues" (PList []) ;;
   dvs <- Py.iter dimension_values ;;
   row_data <- add_dimensions dimension_headers 0 dvs [] ;;
   metric_values <- Py.get row "metricValues" (PList []) ;;
   mvs <- Py.iter metric_values ;;
   add_metrics metric_headers 0 mvs row_data)%result.

(** Lines 87-104: [flattened_data] for a response that has [rows]. *)
Definition flatten (response : pyval) : result (list dict) :=
  (rows <- Py.getitem response "rows" ;;
   dimension_headers <- header_names response "dimensionHeaders" ;;
   metric_headers <- header_names response "metricHeaders" ;;
   rs <- Py.iter rows ;;
   mapM (flatten_row dimension_headers metric_headers) rs)%result.

(** Lines 109-110. *)
Definition convert_date (df : DataFrame) : prog DataFrame :=
  if pd.has_column "date" df
  then (dates <- lift (pd.getitem df "date") ;;
        converted <- trigger (to_datetime dates) ;;
        Ret (pd.setitem_series df "date" converted))%prog
  else Ret df.

(** Lines 83-112: what [get_data] does with the response. *)
Definition get_data_response (response : pyval) : prog DataFrame :=
  (has_rows <- lift (Py.contains "rows" response) ;;
   if negb has_rows then Ret pd.empty
   else
     flattened_data <- lift (flatten response) ;;
     df <- lift (pd.DataFrame (PList (map PDict flattened_data))) ;;
     df <- convert_date df ;;
     trigger (_validate_data df))%prog.

(** The call of line 81 on the arguments lines 74-80 build. *)
Definition get_data_call (self : t) (metrics dimensions : list string)
           (start_date end_date : string) : call pyval :=
  let request_body := request_body metrics dimensions start_date end_date in
  _make_request (endpoint self) []
                [("method", PStr "POST"); ("data", request_body)].

Definition get_data (self : t) (metrics : list string)
           (dimensions : option (list string))
           (start_date end_date : option string) : prog DataFrame :=
  let start_date := default "30daysAgo" start_date in
  let end_date := default "today" end_date in
  let dimensions := default ["date"] dimensions in
  (response <- trigger (get_data_call self metrics dimensions
                                      start_date end_date) ;;
   get_data_response response)%prog.

Definition get_traffic_overview (self : t)
           (start_date end_date : option string) : prog DataFrame :=
  let start_date := default "30daysAgo" start_date in
  let end_date := default "today" end_date in
  let metrics := ["sessions"; "users"; "pageviews"; "bounceRate";
                  "averageSessionDuration"] in
  let dimensions := ["date"] in
  get_data self metrics (Some dimensions) (Some start_date) (Some end_date).

Definition get_traffic_sources (self : t)
           (start_date end_date : option string) : prog DataFrame :=
  let start_date := default "30daysAgo" start_date in
  let end_date := default "today" end_date in
  let metrics := ["sessions"; "users"] in
  let dimensions := ["source"; "medium"] in
  get_data self metrics (Some dimensions) (Some start_date) (Some end_date).

End GoogleAnalyticsConnector.

(** ** SimilarwebConnector *)

(** What a method annotated [-> pd.DataFrame] can hand back: a table, or
    [None] when its body ends without a [return]. *)
Inductive returned : Type :=
| NoneObject
| Table (df : DataFrame).

Module SimilarwebConnector.

Record t : Type := {
  api_key : string;
  base_url : string;
  rate_limit_requests : Z;
  rate_limit_window : Z
}.

Definition __init__ (api_key : string) : t :=
  {| api_key := api_key;
     base_url := "https://api.similarweb.com/v1";
     rate_limit_requests := 100;
     rate_limit_window := 3600 |}.

(** Lines 168-172.  [super_headers] is the dictionary
    [super()._get_headers()] returned. *)
Definition _get_headers (self : t) (super_headers : list (string * string))
  : list (string * string) :=
  let headers := super_headers in
  Py.dict_set "Authorization" ("Bearer " ++ api_key self)%string headers.

Definition descriptor (name description : string) : dict :=
  [("name", PStr name); ("description", PStr description)].

Definition get_available_datasets (self : t) : prog (list dict) :=
  Ret [ descriptor "website_overview" "Website traffic overview";
        descriptor "traffic_sources" "Website traffic sources";
        descriptor "audience_interests" "Audience interests";
        descriptor "similar_sites" "Similar websites";
        descriptor "top_pages" "Top performing pages" ].

(** Lines 215-225: what [get_website_overview] does with the response. *)
Definition get_website_overview_response (domain : string)
           (response : pyval) : prog DataFrame :=
  (has_visits <- lift (Py.contains "visits" response) ;;
   if negb has_visits then Ret pd.empty
   else
     visits_data <- lift (Py.getitem response "visits") ;;
     df <- lift (pd.DataFrame visits_data) ;;
     let df := pd.setitem_scalar df "domain" (PStr domain) in
     dates <- lift (pd.getitem df "date") ;;
     converted <- trigger (to_datetime dates) ;;
     let df := pd.setitem_series df "date" converted in
     trigger (_validate_data df))%prog.

(** The call of line 213 on the arguments lines 204-212 build. *)
Definition get_website_overview_call (domain start_date end_date : string)
           (country granularity : string) : call pyval :=
  let params := PDict [ ("start_date", PStr start_date);
                        ("end_date", PStr end_date);
                        ("country", PStr country);
                        ("granularity", PStr granularity);
                        ("main_domain_only", PStr "false") ] in
  let endpoint :=
    ("website/" ++ domain ++ "/total-traffic-and-engagement/visits")%string in
  _make_request endpoint [params] [].

Definition get_website_overview (self : t)
           (domain start_date end_date : string)
           (country granularity : option string) : prog DataFrame :=
  let country := default "world" country in
  let granularity := default "monthly" granularity in
  (response <- trigger (get_website_overview_call domain start_date end_date
                                                  country granularity) ;;
   get_website_overview_response domain response)%prog.

(** Lines 227-246: the body builds [params] and ends there. *)
Definition get_traffic_sources (self : t)
           (domain start_date end_date : string)
           (country : option string) : prog returned :=
  let country := default "world" country in
  let params := PDict [ ("start_date", PStr start_date);
                        ("end_date", PStr end_date);
                        ("country", PStr country);
                        ("main_domain_only", PStr "false") ] in
  Ret NoneObject.

End SimilarwebConnector.

(** ** Reading a response as a GA4 report *)

(** The shape the reporting API documents for [runReport]: header objects
    carry a string [name], value objects a string [value]; a field that is
    left out counts as an empty list.  The theorems on [get_data] speak of
    the responses that read as a report. *)
Module Report.

Record t : Type := {
  dimension_headers : list string;
  metric_headers : list string;
  rows : list (list string * list string)
}.

Fixpoint traverse {A B : Type} (f : A -> option B) (l : list A)
  : option (list B) :=
  match l with
  | [] => Some []
  | a :: l' =>
      match f a, traverse f l' with
      | Some b, Some bs => Some (b :: bs)
      | _, _ => None
      end
  end.

Definition field_of (field : string) (o : pyval) : option string :=
  match o with
  | PDict d =>
      match Py.dict_get field d with
      | Some (PStr s) => Some s
      | _ => None
      end
  | _ => None
  end.

Definition listing (d : dict) (field : string) : option (list pyval) :=
  match Py.dict_get field d with
  | None => Some []
  | Some (PList l) => Some l
  | Some _ => None
  end.

Definition strings (d : dict) (field key : string) : option (list string) :=
  match listing d field with
  | Some l => traverse (field_of key) l
  | None => None
  end.

Definition row_of (row : pyval) : option (list string * list string) :=
  match row with
  | PDict d =>
      match strings d "dimensionValues" "value",
            strings d "metricValues" "value" with
      | Some ds, Some ms => Some (ds, ms)
      | _, _ => None
      end
  | _ => None
  end.

Definition read (response : pyval) : option t :=
  match response with
  | PDict d =>
      match Py.dict_get "rows" d with
      | Some (PList rs) =>
          match strings d "dimensionHeaders" "name",
                strings d "metricHeaders" "name",
                traverse row_of rs with
          | Some dims, Some mets, Some rows =>
              Some {| dimension_headers := dims;
                      metric_headers := mets;
                      rows := rows |}
          | _, _, _ => None
          end
      | _ => None
      end
  | _ => None
  end.

Definition column_names (r : t) : list string :=
  dimension_headers r ++ metric_headers r.

(** The row has no more values than there are headers. *)
Definition row_within (r : t) (row : list string * list string) : bool :=
  (List.length (fst row) <=? List.length (dimension_headers r))%nat
  && (List.length (snd row) <=? List.length (metric_headers r))%nat.

Definition within (r : t) : bool := forallb (row_within r) (rows r).

(** The row has one value per header. *)
Definition row_matching (r : t) (row : list string * list string) : bool :=
  (List.length (fst row) =? List.length (dimension_headers r))%nat
  && (List.length (snd row) =? List.length (metric_headers r))%nat.

Definition matching (r : t) : bool := forallb (row_matching r) (rows r).

Fixpoint distinct (l : list string) : bool :=
  match l with
  | [] => true
  | k :: l' => negb (Py.mem k l') && distinct l'
  end.

Definition numeric (s : string) : bool :=
  match Py.float_of_str s with
  | Ok _ => true
  | Err _ => false
  end.

Definition rows_numeric (rows : list (list string * list string)) : bool :=
  forallb (fun row => forallb numeric (snd row)) rows.

(** Every metric value of every row is a numeric string. *)
Definition all_numeric (r : t) : bool := rows_numeric (rows r).

Definition store (d : dict) (kv : string * pyval) : dict :=
  Py.dict_set (fst kv) (snd kv) d.

(** The bindings of one row, in the order of the report: each dimension
    value under the name of its header, as the string it is, then each
    metric value under the name of its header, as a float. *)
Definition bindings (r : t) (row : list string * list string)
           (metrics : list Float64.float) : dict :=
  combine (dimension_headers r) (map PStr (fst row))
  ++ combine (metric_headers r) (map PFloat metrics).

(** The dictionary of one row: its bindings stored one after the other
    into an empty dictionary, once every metric has been parsed. *)
Definition row_data (r : t) (row : list string * list string)
  : result dict :=
  (metrics <- mapM Py.float_of_str (snd row) ;;
   Ok (fold_left store (bindings r row metrics) []))%result.

End Report.

(** The cell of a table at a row and a column label. *)
Definition at_ (df : DataFrame) (i : nat) (k : string) : option pyval :=
  match Py.dict_get k (columns df) with
  | Some col => nth_error col i
  | None => None
  end.

(** ** The collaborators by their contract *)

(** Modelled from the spec: [BaseDataConnector._validate_data] is not part
    of the file.  Section 4.4: it receives a table and returns the table
    unchanged if valid, or raises [ValidationError]. *)
Definition validation_contract (w : collaborators) : Prop :=
  forall df,
    validate_data w df = Ok df \/ validate_data w df = Err ValidationError.

Definition is_number (v : pyval) : bool :=
  match v with
  | PInt _ | PFloat _ => true
  | _ => false
  end.

Definition is_string (v : pyval) : bool :=
  match v with
  | PStr _ => true
  | _ => false
  end.

(** Modelled from the spec: the check section 4.4 names, no column mixes
    numbers and strings. *)
Definition consistent (df : DataFrame) : bool :=
  forallb (fun c => negb (existsb is_number (snd c) && existsb is_string (snd c)))
          (columns df).

(** A test double: every request is answered with [response], dates are
    left as they come, validation is the check of section 4.4. *)
Definition mocked (response : pyval) : collaborators :=
  {| make_request := fun _ _ _ => Ok response;
     parse_dates := fun dates => Ok dates;
     validate_data :=
       fun df => if consistent df then Ok df else Err ValidationError |}.

(** The [name] entries of a catalog of a given [type]. *)
Definition names_of_type (type : string) (catalog : list dict) : list pyval :=
  flat_map (fun entry =>
              match Py.dict_get "type" entry, Py.dict_get "name" entry with
              | Some (PStr t), Some n => if String.eqb t type then [n] else []
              | _, _ => []
              end) catalog.

(** The header [name] has no value in [row]: it stands at a position the
    values of the row do not reach. *)
Definition lacks (r : Report.t) (row : list string * list string)
           (name : string) : Prop :=
  (exists j, nth_error (Report.dimension_headers r) j = Some name /\
             List.length (fst row) <= j) \/
  (exists j, nth_error (Report.metric_headers r) j = Some name /\
             List.length (snd row) <= j).

(** The names a method asks for under [field] of the body of its first
    request. *)
Definition request_names {A : Type} (p : prog A) (field : string)
  : list string :=
  match p with
  | Vis (_make_request _ _ kwargs) _ =>
      match Py.dict_get "data" kwargs with
      | Some (PDict body) =>
          match Report.strings body field "name" with
          | Some names => names
          | None => []
          end
      | _ => []
      end
  | _ => []
  end.

(** The response of the traffic-sources scenario: the headers the request
    asks for and one row. *)
Definition scenario_response : pyval :=
  let value v := PDict [("value", PStr v)] in
  let name n := PDict [("name", PStr n)] in
  PDict [ ("dimensionHeaders", PList [name "source"; name "medium"]);
          ("metricHeaders", PList [name "sessions"; name "users"]);
          ("rows",
           PList [PDict [ ("dimensionValues",
                           PList [value "google"; value "organic"]);
                          ("metricValues", PList [value "10"; value "8"]) ]]) ].

(** * Properties *)

Import GoogleAnalyticsConnector.

(** ** Running a method *)

Lemma run_bind {A B : Type} (w : collaborators) (p : prog A) (f : A -> prog B) :
  run w (bind p f) =
  match run w p with
  | Ok a => run w (f a)
  | Err e => Err e
  end.
Proof.
  induction p as [a | e | X c k IH]; simpl; try reflexivity.
  destruct (answer w c); [apply IH | reflexivity].
Qed.

Lemma run_lift {A : Type} (w : collaborators) (r : result A) :
  run w (lift r) = r.
Proof. destruct r; reflexivity. Qed.

Lemma run_trigger {X : Type} (w : collaborators) (c : call X) :
  run w (trigger c) = answer w c.
Proof. simpl. destruct (answer w c); reflexivity. Qed.

Lemma get_data_unfold self metrics dimensions start_date end_date :
  get_data self metrics dimensions start_date end_date =
  Vis (get_data_call self metrics (default ["date"] dimensions)
                     (default "30daysAgo" start_date)
                     (default "today" end_date))
      get_data_response.
Proof. reflexivity. Qed.

Lemma run_get_data w self metrics dimensions start_date end_date :
  run w (get_data self metrics dimensions start_date end_date) =
  match answer w (get_data_call self metrics (default ["date"] dimensions)
                                (default "30daysAgo" start_date)
                                (default "today" end_date)) with
  | Ok response => run w (get_data_response response)
  | Err e => Err e
  end.
Proof. rewrite get_data_unfold. reflexivity. Qed.

Lemma trace_get_data w self metrics dimensions start_date end_date :
  trace w (get_data self metrics dimensions start_date end_date) =
  let c := get_data_call self metrics (default ["date"] dimensions)
                         (default "30daysAgo" start_date)
                         (default "today" end_date) in
  Issued c ::
  match answer w c with
  | Ok response => trace w (get_data_response response)
  | Err _ => []
  end.
Proof. rewrite get_data_unfold. reflexivity. Qed.

(** ** [float] on a few strings *)

Example float_of_str_numbers :
  map Py.float_of_str ["10"; "8"; " 1_0.5e1 "; "1."; ".5"; "-0"; "1E+2"] =
  [ Ok (Float64.of_Z 10); Ok (Float64.of_Z 8); Ok (Float64.of_Z 105);
    Ok (Float64.of_Z 1); Ok (S754_finite false 4503599627370496 (-53));
    Ok (S754_zero true); Ok (Float64.of_Z 100) ].
Proof. vm_compute. reflexivity. Qed.

Example float_of_str_special :
  map Py.float_of_str ["inf"; "-Infinity"; "NaN"; "1e400"; "1e-400"] =
  [ Ok (S754_infinity false); Ok (S754_infinity true); Ok S754_nan;
    Ok (S754_infinity false); Ok (S754_zero false) ].
Proof. vm_compute. reflexivity. Qed.

Example float_of_str_rejects :
  map Py.float_of_str
      [""; " "; "abc"; "n/a"; "."; "1e"; "1e+"; "1__0"; "_1"; "1_"; "+-1";
       "0x10"; "1 2"; "12,5"; "infin"] =
  repeat (Err ValueError) 15.
Proof. vm_compute. reflexivity. Qed.

Example float_of_other_values :
  map Py.float [PInt 3; PBool true; PNone; PList []; PInt (10 ^ 400)] =
  [ Ok (Float64.of_Z 3); Ok (Float64.of_Z 1); Err TypeError; Err TypeError;
    Err OverflowError ].
Proof. vm_compute. reflexivity. Qed.

(** ** Dictionaries *)

Lemma mem_keys_dict_get {V : Type} (k : string) (d : list (string * V)) :
  Py.mem k (Py.keys d) = match Py.dict_get k d with Some _ => true | None => false end.
Proof.
  induction d as [| [k' v] d IH]; simpl; [reflexivity |].
  destruct (String.eqb k k'); [reflexivity | exact IH].
Qed.

(** ** The catalogs *)

(** C7. [get_available_datasets] of either connector returns at once, with
    no call issued, so two calls in a row return the same catalog; the GA4
    catalog lists the five metrics sessions, users, pageviews, bounceRate
    and sessionDuration, then the five dimensions date, country,
    deviceCategory, source and medium. *)
Theorem get_available_datasets_static :
  forall (w : collaborators) (ga : GoogleAnalyticsConnector.t)
         (sw : SimilarwebConnector.t),
    (exists catalog,
        get_available_datasets ga = Ret catalog /\
        trace w (get_available_datasets ga) = [] /\
        run w (a <- get_available_datasets ga ;;
               b <- get_available_datasets ga ;;
               Ret (a, b))%prog = Ok (catalog, catalog) /\
        map (Py.dict_get "name") catalog =
          map (fun n => Some (PStr n))
              ["sessions"; "users"; "pageviews"; "bounceRate";
               "sessionDuration";
               "date"; "country"; "deviceCategory"; "source"; "medium"] /\
        map (Py.dict_get "type") catalog =
          map (fun n => Some (PStr n))
              (repeat "metric" 5 ++ repeat "dimension" 5) /\
        names_of_type "metric" catalog =
          map PStr ["sessions"; "users"; "pageviews"; "bounceRate";
                    "sessionDuration"] /\
        names_of_type "dimension" catalog =
          map PStr ["date"; "country"; "deviceCategory"; "source"; "medium"])
    /\
    (exists catalog,
        SimilarwebConnector.get_available_datasets sw = Ret catalog /\
        trace w (SimilarwebConnector.get_available_datasets sw) = [] /\
        run w (a <- SimilarwebConnector.get_available_datasets sw ;;
               b <- SimilarwebConnector.get_available_datasets sw ;;
               Ret (a, b))%prog = Ok (catalog, catalog) /\
        map (Py.dict_get "name") catalog =
          map (fun n => Some (PStr n))
              ["website_overview"; "traffic_sources"; "audience_interests";
               "similar_sites"; "top_pages"]).
Proof.
  intros w ga sw. split.
  - eexists. split; [reflexivity |]. repeat split; reflexivity.
  - eexists. split; [reflexivity |]. repeat split; reflexivity.
Qed.

(** ** The request of [get_data] *)

(** C8. [get_data] first issues one call of [_make_request], on the
    endpoint [properties/{property_id}:runReport], with method POST and a
    body of one date range, the metrics as [{name: m}] in order and the
    dimensions likewise, and hands the response to the rest of the method;
    dimensions left out are [['date']], the dates left out are
    ['30daysAgo'] and ['today']. *)
Theorem get_data_request :
  forall (self : GoogleAnalyticsConnector.t) (metrics : list string)
         (dimensions : option (list string))
         (start_date end_date : option string),
    let dims := match dimensions with Some l => l | None => ["date"] end in
    let start := match start_date with Some s => s | None => "30daysAgo" end in
    let stop := match end_date with Some s => s | None => "today" end in
    get_data self metrics dimensions start_date end_date =
    Vis (_make_request
           ("properties/" ++ property_id self ++ ":runReport")%string
           []
           [ ("method", PStr "POST");
             ("data",
              PDict [ ("dateRanges",
                       PList [PDict [("startDate", PStr start);
                                     ("endDate", PStr stop)]]);
                      ("metrics",
                       PList (map (fun m => PDict [("name", PStr m)]) metrics));
                      ("dimensions",
                       PList (map (fun d => PDict [("name", PStr d)]) dims)) ]) ])
        get_data_response.
Proof.
  intros self metrics dimensions start_date end_date.
  destruct dimensions, start_date, end_date; reflexivity.
Qed.

(** ** Responses without the primary field *)

(** C2. When the response of the request has no [rows] key, [get_data]
    returns the empty table: the rest of the method is [return
    pd.DataFrame()], no error is raised, and the request is the only call
    issued (no date conversion, no validation). *)
Theorem get_data_without_rows_is_empty :
  forall (w : collaborators) (self : GoogleAnalyticsConnector.t)
         (metrics : list string) (dimensions : option (list string))
         (start_date end_date : option string) (d : dict),
    answer w (get_data_call self metrics (default ["date"] dimensions)
                            (default "30daysAgo" start_date)
                            (default "today" end_date)) = Ok (PDict d) ->
    Py.dict_get "rows" d = None ->
    get_data_response (PDict d) = Ret pd.empty /\
    run w (get_data self metrics dimensions start_date end_date) = Ok pd.empty /\
    pd.len pd.empty = 0 /\
    trace w (get_data self metrics dimensions start_date end_date) =
      [Issued (get_data_call self metrics (default ["date"] dimensions)
                             (default "30daysAgo" start_date)
                             (default "today" end_date))].
Proof.
  intros w self metrics dimensions start_date end_date d Hanswer Hrows.
  assert (Hresp : get_data_response (PDict d) = Ret pd.empty).
  { unfold get_data_response. simpl Py.contains.
    rewrite mem_keys_dict_get, Hrows. reflexivity. }
  split; [exact Hresp |].
  rewrite run_get_data, trace_get_data. cbv zeta.
  rewrite Hanswer, Hresp. repeat split; reflexivity.
Qed.

Lemma get_data_without_rows_is_empty_witness :
  let d := [("dimensionHeaders", PList []); ("rowCount", PInt 0)] in
  let w := mocked (PDict d) in
  let self := GoogleAnalyticsConnector.__init__ "token" "properties-1" in
  run w (get_data self ["sessions"] None None None) = Ok pd.empty /\
  trace w (get_data self ["sessions"] None None None) =
    [Issued (get_data_call self ["sessions"] ["date"] "30daysAgo" "today")].
Proof.
  intros d w self.
  destruct (get_data_without_rows_is_empty w self ["sessions"] None None None d
              eq_refl eq_refl) as (_ & Hrun & _ & Htrace).
  split; [exact Hrun | exact Htrace].
Defined.

(** ** The traffic sources of the Similarweb connector *)

(** C1. [SimilarwebConnector.get_traffic_sources] builds its [params] and
    ends: on every input it returns [None], not a table, and issues no
    request. *)
Theorem similarweb_get_traffic_sources_returns_none :
  forall (w : collaborators) (self : SimilarwebConnector.t)
         (domain start_date end_date : string) (country : option string),
    SimilarwebConnector.get_traffic_sources self domain start_date end_date
                                            country = Ret NoneObject /\
    run w (SimilarwebConnector.get_traffic_sources self domain start_date
                                                   end_date country)
      = Ok NoneObject /\
    trace w (SimilarwebConnector.get_traffic_sources self domain start_date
                                                     end_date country) = [] /\
    (forall df, run w (SimilarwebConnector.get_traffic_sources
                         self domain start_date end_date country)
                <> Ok (Table df)).
Proof.
  intros. repeat split; try reflexivity.
  intros df H. discriminate H.
Qed.

(** ** The website overview *)

(** C6. On a response whose [visits] list is empty, [get_website_overview]
    raises [KeyError('date')]: the table built from no entry has no [date]
    column to convert.  No table is returned, and neither the date
    conversion nor the validation is called. *)
Theorem get_website_overview_empty_visits :
  forall (w : collaborators) (self : SimilarwebConnector.t)
         (domain start_date end_date : string)
         (country granularity : option string),
    answer w (SimilarwebConnector.get_website_overview_call
                domain start_date end_date
                (default "world" country) (default "monthly" granularity))
      = Ok (PDict [("visits", PList [])]) ->
    SimilarwebConnector.get_website_overview_response
      domain (PDict [("visits", PList [])]) = Raise (KeyError "date") /\
    run w (SimilarwebConnector.get_website_overview
             self domain start_date end_date country granularity)
      = Err (KeyError "date").
Proof.
  intros w self domain start_date end_date country granularity Hanswer.
  split; [reflexivity |].
  unfold SimilarwebConnector.get_website_overview, trigger.
  cbv zeta. cbn [bind run]. rewrite Hanswer. reflexivity.
Qed.

Lemma get_website_overview_empty_visits_witness :
  run (mocked (PDict [("visits", PList [])]))
      (SimilarwebConnector.get_website_overview
         (SimilarwebConnector.__init__ "key") "example.com" "2024-01" "2024-02"
         None None)
  = Err (KeyError "date").
Proof.
  exact (proj2 (get_website_overview_empty_visits
                  (mocked (PDict [("visits", PList [])]))
                  (SimilarwebConnector.__init__ "key")
                  "example.com" "2024-01" "2024-02" None None eq_refl)).
Defined.

(** ** The flattening loop on a report *)

Arguments Py.float_of_str : simpl never.

Lemma skipn_nth_error {A : Type} (l : list A) (i : nat) (x : A) :
  nth_error l i = Some x -> skipn i l = x :: skipn (S i) l.
Proof.
  revert l; induction i as [| i IH]; intros [| y l] H; try discriminate.
  - injection H as ->. reflexivity.
  - apply (IH l H).
Qed.

Lemma nth_error_in_range {A : Type} (l : list A) (i : nat) :
  i < List.length l -> exists x, nth_error l i = Some x.
Proof.
  intros H. destruct (nth_error l i) as [x |] eqn:E; [now exists x |].
  apply nth_error_None in E. lia.
Qed.

Lemma field_of_getitem (field : string) (o : pyval) (s : string) :
  Report.field_of field o = Some s -> Py.getitem o field = Ok (PStr s).
Proof.
  destruct o as [| | | | | | d]; simpl; try discriminate.
  destruct (Py.dict_get field d) as [[] |]; try discriminate.
  intros [= ->]. reflexivity.
Qed.

Lemma traverse_cons {A B : Type} (f : A -> option B) (a : A) (l : list A)
      (bs : list B) :
  Report.traverse f (a :: l) = Some bs ->
  exists b bs', f a = Some b /\ Report.traverse f l = Some bs' /\ bs = b :: bs'.
Proof.
  simpl. destruct (f a) as [b |]; [| discriminate].
  destruct (Report.traverse f l) as [bs' |]; [| discriminate].
  intros [= <-]. now exists b, bs'.
Qed.

Lemma strings_get (d : dict) (field key : string) (ss : list string) :
  Report.strings d field key = Some ss ->
  exists l, Py.get (PDict d) field (PList []) = Ok (PList l) /\
            Report.traverse (Report.field_of key) l = Some ss.
Proof.
  unfold Report.strings, Report.listing, Py.get.
  destruct (Py.dict_get field d) as [[] |]; try discriminate; eauto.
Qed.

Lemma header_names_read (d : dict) (field : string) (names : list string) :
  Report.strings d field "name" = Some names ->
  header_names (PDict d) field = Ok (map PStr names).
Proof.
  intros H. apply strings_get in H as (l & Hget & Htr).
  unfold header_names. rewrite Hget. cbn [rbind Py.iter].
  clear Hget. revert names Htr.
  induction l as [| h l IH]; intros names Htr.
  - injection Htr as <-. reflexivity.
  - apply traverse_cons in Htr as (n & ns & Hn & Htr & ->).
    cbn [mapM]. rewrite (field_of_getitem _ _ _ Hn). cbn [rbind].
    rewrite (IH _ Htr). reflexivity.
Qed.

Lemma list_getitem_names (names : list string) (i : nat) (n : string) :
  nth_error names i = Some n ->
  Py.list_getitem (map PStr names) i = Ok (PStr n).
Proof.
  intros H. unfold Py.list_getitem.
  rewrite nth_error_map, H. reflexivity.
Qed.

Lemma add_dimensions_spec (names : list string) (values : list pyval) :
  forall (ds : list string) (i : nat) (row_data : dict),
    Report.traverse (Report.field_of "value") values = Some ds ->
    i + List.length ds <= List.length names ->
    add_dimensions (map PStr names) i values row_data =
    Ok (fold_left Report.store (combine (skipn i names) (map PStr ds)) row_data).
Proof.
  induction values as [| v values IH]; intros ds i row_data Htr Hlen.
  - injection Htr as <-. simpl. rewrite combine_nil. reflexivity.
  - apply traverse_cons in Htr as (s & ds' & Hv & Htr & ->).
    simpl in Hlen.
    destruct (nth_error_in_range names i) as [n Hn]; [lia |].
    cbn [add_dimensions]. rewrite (field_of_getitem _ _ _ Hv). cbn [rbind].
    rewrite (list_getitem_names _ _ _ Hn). cbn [rbind Py.hashable_key].
    rewrite (IH ds' (S i) _ Htr) by lia.
    rewrite (skipn_nth_error _ _ _ Hn). reflexivity.
Qed.

Lemma add_metrics_spec (names : list string) (values : list pyval) :
  forall (ms : list string) (i : nat) (row_data : dict),
    Report.traverse (Report.field_of "value") values = Some ms ->
    i + List.length ms <= List.length names ->
    add_metrics (map PStr names) i values row_data =
    (fs <- mapM Py.float_of_str ms ;;
     Ok (fold_left Report.store (combine (skipn i names) (map PFloat fs))
                   row_data))%result.
Proof.
  induction values as [| v values IH]; intros ms i row_data Htr Hlen.
  - injection Htr as <-. simpl. rewrite combine_nil. reflexivity.
  - apply traverse_cons in Htr as (s & ms' & Hv & Htr & ->).
    simpl in Hlen.
    destruct (nth_error_in_range names i) as [n Hn]; [lia |].
    cbn [add_metrics mapM]. rewrite (field_of_getitem _ _ _ Hv).
    cbn [rbind Py.float].
    destruct (Py.float_of_str s) as [x | e]; cbn [rbind]; [| reflexivity].
    rewrite (list_getitem_names _ _ _ Hn). cbn [rbind Py.hashable_key].
    rewrite (IH ms' (S i) _ Htr) by lia.
    destruct (mapM Py.float_of_str ms') as [fs | e]; cbn [rbind map];
      [| reflexivity].
    rewrite (skipn_nth_error _ _ _ Hn). reflexivity.
Qed.

Lemma row_of_inv (row : pyval) (ds ms : list string) :
  Report.row_of row = Some (ds, ms) ->
  exists d, row = PDict d /\
            Report.strings d "dimensionValues" "value" = Some ds /\
            Report.strings d "metricValues" "value" = Some ms.
Proof.
  destruct row as [| | | | | | d]; cbn [Report.row_of]; try discriminate.
  intros H. exists d. split; [reflexivity |].
  destruct (Report.strings d "dimensionValues" "value") as [ds' |];
    [| discriminate].
  destruct (Report.strings d "metricValues" "value") as [ms' |];
    [| discriminate].
  injection H as <- <-. split; reflexivity.
Qed.

Lemma flatten_row_spec (r : Report.t) (row : pyval) (ds ms : list string) :
  Report.row_of row = Some (ds, ms) ->
  List.length ds <= List.length (Report.dimension_headers r) ->
  List.length ms <= List.length (Report.metric_headers r) ->
  flatten_row (map PStr (Report.dimension_headers r))
              (map PStr (Report.metric_headers r)) row =
  Report.row_data r (ds, ms).
Proof.
  intros Hrow Hd Hm.
  apply row_of_inv in Hrow as (d & -> & Hds & Hms).
  apply strings_get in Hds as (dvs & Hgd & Htd).
  apply strings_get in Hms as (mvs & Hgm & Htm).
  unfold flatten_row, Report.row_data, Report.bindings.
  rewrite Hgd. cbn [rbind Py.iter].
  rewrite (add_dimensions_spec _ _ _ 0 [] Htd) by (simpl; lia).
  cbn [rbind]. rewrite Hgm. cbn [rbind Py.iter].
  rewrite (add_metrics_spec _ _ _ 0 _ Htm) by (simpl; lia).
  cbn [skipn fst snd].
  destruct (mapM Py.float_of_str ms) as [fs | e]; cbn [rbind]; [| reflexivity].
  rewrite fold_left_app. reflexivity.
Qed.

Lemma read_inv (response : pyval) (r : Report.t) :
  Report.read response = Some r ->
  exists d rs,
    response = PDict d /\
    Py.dict_get "rows" d = Some (PList rs) /\
    Report.strings d "dimensionHeaders" "name" = Some (Report.dimension_headers r) /\
    Report.strings d "metricHeaders" "name" = Some (Report.metric_headers r) /\
    Report.traverse Report.row_of rs = Some (Report.rows r).
Proof.
  destruct response as [| | | | | | d]; cbn [Report.read]; try discriminate.
  intros H. exists d.
  destruct (Py.dict_get "rows" d) as [[| | | | | rs |] |]; try discriminate.
  exists rs. split; [reflexivity |]. split; [reflexivity |].
  destruct (Report.strings d "dimensionHeaders" "name") as [dims |];
    [| discriminate].
  destruct (Report.strings d "metricHeaders" "name") as [mets |];
    [| discriminate].
  destruct (Report.traverse Report.row_of rs) as [rows |]; [| discriminate].
  injection H as <-. repeat split; reflexivity.
Qed.

Lemma float_of_str_error (s : string) (e : exn) :
  Py.float_of_str s = Err e -> e = ValueError.
Proof.
  unfold Py.float_of_str.
  destruct (Py.drop_underscores zero (Py.strip (list_ascii_of_string s)))
    as [l |]; [| now intros [= <-]].
  destruct (Py.parse_decimal l); [discriminate |].
  destruct (Py.parse_inf_nan l); [discriminate | now intros [= <-]].
Qed.

Lemma numeric_false (s : string) (e : exn) :
  Py.float_of_str s = Err e -> Report.numeric s = false.
Proof. unfold Report.numeric. now intros ->. Qed.

Lemma numeric_true (s : string) (x : Float64.float) :
  Py.float_of_str s = Ok x -> Report.numeric s = true.
Proof. unfold Report.numeric. now intros ->. Qed.

(** What one pass over the dimension values does, whatever their number:
    an index past the headers raises [IndexError]. *)
Lemma add_dimensions_outcome (names : list string) (values : list pyval) :
  forall (ds : list string) (i : nat) (row_data : dict),
    Report.traverse (Report.field_of "value") values = Some ds ->
    i <= List.length names ->
    ~ i + List.length ds <= List.length names ->
    add_dimensions (map PStr names) i values row_data = Err IndexError.
Proof.
  induction values as [| v values IH]; intros ds i row_data Htr Hi Hlen.
  - injection Htr as <-. simpl in Hlen. lia.
  - apply traverse_cons in Htr as (s & ds' & Hv & Htr & ->).
    simpl in Hlen.
    cbn [add_dimensions]. rewrite (field_of_getitem _ _ _ Hv). cbn [rbind].
    destruct (nth_error names i) as [n |] eqn:Hn.
    + rewrite (list_getitem_names _ _ _ Hn). cbn [rbind Py.hashable_key].
      assert (i < List.length names)
        by (apply nth_error_Some; rewrite Hn; discriminate).
      apply (IH ds' (S i) _ Htr); lia.
    + unfold Py.list_getitem. rewrite nth_error_map, Hn. reflexivity.
Qed.

Lemma add_metrics_outcome (names : list string) (values : list pyval) :
  forall (ms : list string) (i : nat) (row_data : dict),
    Report.traverse (Report.field_of "value") values = Some ms ->
    i <= List.length names ->
    ~ i + List.length ms <= List.length names ->
    (add_metrics (map PStr names) i values row_data = Err IndexError) \/
    (add_metrics (map PStr names) i values row_data = Err ValueError /\
     forallb Report.numeric ms = false).
Proof.
  induction values as [| v values IH]; intros ms i row_data Htr Hi Hlen.
  - injection Htr as <-. simpl in Hlen. lia.
  - apply traverse_cons in Htr as (s & ms' & Hv & Htr & ->).
    simpl in Hlen.
    cbn [add_metrics forallb]. rewrite (field_of_getitem _ _ _ Hv).
    cbn [rbind Py.float].
    destruct (Py.float_of_str s) as [x | e] eqn:Hs; cbn [rbind].
    + rewrite (numeric_true _ _ Hs).
      destruct (nth_error names i) as [n |] eqn:Hn.
      * rewrite (list_getitem_names _ _ _ Hn). cbn [rbind Py.hashable_key].
        assert (i < List.length names)
          by (apply nth_error_Some; rewrite Hn; discriminate).
        apply (IH ms' (S i) _ Htr); lia.
      * left. unfold Py.list_getitem. rewrite nth_error_map, Hn. reflexivity.
    + right. rewrite (float_of_str_error _ _ Hs), (numeric_false _ _ Hs).
      split; reflexivity.
Qed.

Lemma mapM_float_outcome (ms : list string) :
  match mapM Py.float_of_str ms with
  | Ok fs => forallb Report.numeric ms = true /\
             List.length fs = List.length ms
  | Err e => e = ValueError /\ forallb Report.numeric ms = false
  end.
Proof.
  induction ms as [| s ms IH]; cbn [mapM forallb]; [split; reflexivity |].
  destruct (Py.float_of_str s) as [x | e] eqn:Hs; cbn [rbind].
  - rewrite (numeric_true _ _ Hs).
    destruct (mapM Py.float_of_str ms) as [fs | e]; cbn [rbind].
    + destruct IH as [IH1 IH2]. split; [exact IH1 | simpl; now f_equal].
    + exact IH.
  - rewrite (float_of_str_error _ _ Hs), (numeric_false _ _ Hs).
    split; reflexivity.
Qed.

(** One turn of the loop on a row of a report: the row dictionary when the
    row fits the headers and its metrics are numeric, [ValueError] at the
    first metric that is not, [IndexError] at the first value past the
    headers. *)
Lemma flatten_row_outcome (r : Report.t) (row : pyval)
      (ds ms : list string) :
  Report.row_of row = Some (ds, ms) ->
  let out := flatten_row (map PStr (Report.dimension_headers r))
                         (map PStr (Report.metric_headers r)) row in
  (Report.row_within r (ds, ms) = true /\ out = Report.row_data r (ds, ms)) \/
  (Report.row_within r (ds, ms) = false /\
   (out = Err IndexError \/
    (out = Err ValueError /\ forallb Report.numeric ms = false))).
Proof.
  intros Hrow out. subst out. unfold Report.row_within. cbn [fst snd].
  destruct (Nat.leb_spec (List.length ds)
                         (List.length (Report.dimension_headers r))) as [Hd | Hd];
    destruct (Nat.leb_spec (List.length ms)
                           (List.length (Report.metric_headers r))) as [Hm | Hm];
    cbn [andb].
  - left. split; [reflexivity |]. now apply flatten_row_spec.
  - right. split; [reflexivity |].
    apply row_of_inv in Hrow as (d & -> & Hds & Hms).
    apply strings_get in Hds as (dvs & Hgd & Htd).
    apply strings_get in Hms as (mvs & Hgm & Htm).
    unfold flatten_row. rewrite Hgd. cbn [rbind Py.iter].
    rewrite (add_dimensions_spec _ _ _ 0 [] Htd) by (simpl; lia).
    cbn [rbind]. rewrite Hgm. cbn [rbind Py.iter].
    apply (add_metrics_outcome _ _ _ 0 _ Htm); simpl; lia.
  - right. split; [reflexivity |]. left.
    apply row_of_inv in Hrow as (d & -> & Hds & Hms).
    apply strings_get in Hds as (dvs & Hgd & Htd).
    unfold flatten_row. rewrite Hgd. cbn [rbind Py.iter].
    rewrite (add_dimensions_outcome _ _ _ 0 [] Htd) by (simpl; lia).
    reflexivity.
  - right. split; [reflexivity |]. left.
    apply row_of_inv in Hrow as (d & -> & Hds & Hms).
    apply strings_get in Hds as (dvs & Hgd & Htd).
    unfold flatten_row. rewrite Hgd. cbn [rbind Py.iter].
    rewrite (add_dimensions_outcome _ _ _ 0 [] Htd) by (simpl; lia).
    reflexivity.
Qed.

Lemma row_data_outcome (r : Report.t) (row : list string * list string) :
  match Report.row_data r row with
  | Ok rec =>
      forallb Report.numeric (snd row) = true /\
      exists fs, mapM Py.float_of_str (snd row) = Ok fs /\
                 List.length fs = List.length (snd row) /\
                 rec = fold_left Report.store (Report.bindings r row fs) []
  | Err e => e = ValueError /\ forallb Report.numeric (snd row) = false
  end.
Proof.
  unfold Report.row_data.
  pose proof (mapM_float_outcome (snd row)) as H.
  destruct (mapM Py.float_of_str (snd row)) as [fs | e]; cbn [rbind].
  - destruct H as [H1 H2]. split; [exact H1 |]. now exists fs.
  - exact H.
Qed.

Lemma flatten_rows_outcome (r : Report.t) (rs : list pyval) :
  forall rows,
    Report.traverse Report.row_of rs = Some rows ->
    let out := mapM (flatten_row (map PStr (Report.dimension_headers r))
                                 (map PStr (Report.metric_headers r))) rs in
    (forallb (Report.row_within r) rows = true /\
     out = mapM (Report.row_data r) rows) \/
    (forallb (Report.row_within r) rows = false /\
     (out = Err IndexError \/
      (out = Err ValueError /\ Report.rows_numeric rows = false))).
Proof.
  induction rs as [| row rs IH]; intros rows Htr out; subst out.
  - injection Htr as <-. left. split; reflexivity.
  - apply traverse_cons in Htr as ([ds ms] & rows' & Hrow & Htr & ->).
    specialize (IH rows' Htr). cbv zeta in IH.
    cbn [mapM forallb Report.rows_numeric].
    destruct (flatten_row_outcome r row ds ms Hrow) as [[Hw Hout] | [Hw Hout]];
      rewrite Hw; cbn [andb].
    + rewrite Hout. pose proof (row_data_outcome r (ds, ms)) as Hrd.
      destruct (Report.row_data r (ds, ms)) as [rec | e]; cbn [rbind].
      * destruct Hrd as [Hnum _]. cbn [snd] in Hnum.
        destruct IH as [[Hws Houts] | [Hws [Houts | [Houts Hn]]]]; rewrite Hws.
        -- left. split; [reflexivity |]. rewrite Houts. reflexivity.
        -- right. split; [reflexivity |]. left. rewrite Houts. reflexivity.
        -- right. split; [reflexivity |]. right. rewrite Houts.
           split; [reflexivity |]. cbn [snd]. fold (Report.rows_numeric rows').
           rewrite Hn. apply andb_false_r.
      * destruct Hrd as [-> Hnum]. cbn [snd] in Hnum.
        destruct (forallb (Report.row_within r) rows').
        -- left. split; reflexivity.
        -- right. split; [reflexivity |]. right. split; [reflexivity |].
           cbn [snd]. rewrite Hnum. reflexivity.
    + right. split; [reflexivity |].
      destruct Hout as [-> | [-> Hnum]]; [left; reflexivity |].
      right. split; [reflexivity |]. cbn [snd]. rewrite Hnum. reflexivity.
Qed.

Lemma flatten_read_rows (response : pyval) (r : Report.t) :
  Report.read response = Some r ->
  exists rs,
    Report.traverse Report.row_of rs = Some (Report.rows r) /\
    flatten response =
    mapM (flatten_row (map PStr (Report.dimension_headers r))
                      (map PStr (Report.metric_headers r))) rs.
Proof.
  intros H. apply read_inv in H as (d & rs & -> & Hrows & Hdims & Hmets & Htr).
  exists rs. split; [exact Htr |].
  unfold flatten. cbn [Py.getitem]. rewrite Hrows. cbn [rbind].
  rewrite (header_names_read _ _ _ Hdims). cbn [rbind].
  rewrite (header_names_read _ _ _ Hmets). reflexivity.
Qed.

(** On a report no row of which outruns the headers, the loop computes the
    row dictionaries of the report. *)
Lemma flatten_read (response : pyval) (r : Report.t) :
  Report.read response = Some r ->
  Report.within r = true ->
  flatten response = mapM (Report.row_data r) (Report.rows r).
Proof.
  intros Hread Hwithin.
  destruct (flatten_read_rows _ _ Hread) as (rs & Htr & ->).
  destruct (flatten_rows_outcome r rs _ Htr) as [[_ H] | [H _]].
  - exact H.
  - unfold Report.within in Hwithin. congruence.
Qed.

Lemma as_records_map (records : list dict) :
  pd.as_records (map PDict records) = Some records.
Proof.
  induction records as [| d records IH]; simpl; [reflexivity |].
  rewrite IH. reflexivity.
Qed.

Lemma read_contains_rows (response : pyval) (r : Report.t) :
  Report.read response = Some r -> Py.contains "rows" response = Ok true.
Proof.
  intros H. apply read_inv in H as (d & rs & -> & Hrows & _).
  cbn [Py.contains]. rewrite mem_keys_dict_get, Hrows. reflexivity.
Qed.

Lemma get_data_response_read (response : pyval) (r : Report.t) :
  Report.read response = Some r ->
  get_data_response response =
  match flatten response with
  | Ok flattened_data =>
      (df <- convert_date (pd.of_records flattened_data) ;;
       trigger (_validate_data df))%prog
  | Err e => Raise e
  end.
Proof.
  intros H. unfold get_data_response.
  rewrite (read_contains_rows _ _ H). cbn [lift bind negb].
  destruct (flatten response) as [recs | e]; cbn [lift bind]; [| reflexivity].
  unfold pd.DataFrame. rewrite as_records_map. reflexivity.
Qed.

(** ** Dictionaries with distinct keys *)

Lemma mem_In (k : string) (l : list string) : Py.mem k l = true <-> In k l.
Proof.
  unfold Py.mem. rewrite existsb_exists. split.
  - intros (x & Hin & Heq). apply String.eqb_eq in Heq. now subst.
  - intros Hin. exists k. split; [exact Hin | apply String.eqb_refl].
Qed.

Lemma mem_not_In (k : string) (l : list string) :
  Py.mem k l = false <-> ~ In k l.
Proof.
  rewrite <- mem_In. destruct (Py.mem k l); split; congruence.
Qed.

Lemma distinct_NoDup (l : list string) : Report.distinct l = true <-> NoDup l.
Proof.
  induction l as [| k l IH]; simpl.
  - split; [constructor | reflexivity].
  - rewrite andb_true_iff, negb_true_iff, mem_not_In, IH. split.
    + intros [H1 H2]. now constructor.
    + intros H. inversion H. now split.
Qed.

Lemma dict_set_fresh {V : Type} (k : string) (v : V) (d : list (string * V)) :
  ~ In k (Py.keys d) -> Py.dict_set k v d = d ++ [(k, v)].
Proof.
  induction d as [| [k' v'] d IH]; simpl; intros H; [reflexivity |].
  destruct (String.eqb_spec k k') as [-> | Hne]; [tauto |].
  rewrite IH by tauto. reflexivity.
Qed.

Lemma keys_dict_set_known {V : Type} (k : string) (v : V)
      (d : list (string * V)) :
  In k (Py.keys d) -> Py.keys (Py.dict_set k v d) = Py.keys d.
Proof.
  induction d as [| [k' v'] d IH]; simpl; intros H; [tauto |].
  destruct (String.eqb_spec k k') as [-> | Hne]; [reflexivity |].
  simpl. f_equal. apply IH. destruct H; congruence.
Qed.

Lemma dict_get_dict_set_other {V : Type} (k k' : string) (v : V)
      (d : list (string * V)) :
  k' <> k -> Py.dict_get k' (Py.dict_set k v d) = Py.dict_get k' d.
Proof.
  intros Hne. induction d as [| [k0 v0] d IH]; simpl.
  - destruct (String.eqb_spec k' k); [contradiction | reflexivity].
  - destruct (String.eqb_spec k k0) as [-> | Hk]; simpl.
    + destruct (String.eqb_spec k' k0); [contradiction | reflexivity].
    + destruct (String.eqb k' k0); [reflexivity | exact IH].
Qed.

Lemma dict_get_app {V : Type} (k : string) (d1 d2 : list (string * V)) :
  ~ In k (Py.keys d1) -> Py.dict_get k (d1 ++ d2) = Py.dict_get k d2.
Proof.
  induction d1 as [| [k' v'] d1 IH]; simpl; intros H; [reflexivity |].
  destruct (String.eqb_spec k k') as [-> | Hne]; [tauto |].
  apply IH. tauto.
Qed.

Lemma dict_get_app_left {V : Type} (k : string) (d1 d2 : list (string * V))
      (v : V) :
  Py.dict_get k d1 = Some v -> Py.dict_get k (d1 ++ d2) = Some v.
Proof.
  induction d1 as [| [k' v'] d1 IH]; simpl; [discriminate |].
  destruct (String.eqb k k'); [trivial | exact IH].
Qed.

Lemma keys_app {V : Type} (d1 d2 : list (string * V)) :
  Py.keys (d1 ++ d2) = Py.keys d1 ++ Py.keys d2.
Proof. apply map_app. Qed.

Lemma keys_combine {V : Type} (ks : list string) (vs : list V) :
  List.length ks <= List.length vs -> Py.keys (combine ks vs) = ks.
Proof.
  revert vs; induction ks as [| k ks IH]; intros [| v vs] H; simpl in *;
    try reflexivity; try lia.
  f_equal. apply IH. lia.
Qed.

Lemma keys_combine_incl {V : Type} (ks : list string) (vs : list V) (k : string) :
  In k (Py.keys (combine ks vs)) -> In k ks.
Proof.
  revert vs; induction ks as [| k0 ks IH]; intros [| v vs]; simpl; try tauto.
  intros [H | H]; [now left | right; eapply IH, H].
Qed.

(** Under distinct names the value stored at position [j] is the one read
    back under the [j]-th name. *)
Lemma dict_get_combine {V : Type} (ks : list string) (vs : list V)
      (j : nat) (k : string) (v : V) :
  NoDup ks -> nth_error ks j = Some k -> nth_error vs j = Some v ->
  Py.dict_get k (combine ks vs) = Some v.
Proof.
  intros Hnd. revert vs j.
  induction Hnd as [| k0 ks Hnotin Hnd IH]; intros vs j Hk Hv.
  - destruct j; discriminate.
  - destruct vs as [| v0 vs]; [destruct j; discriminate |].
    destruct j as [| j]; simpl in *.
    + injection Hk as ->. injection Hv as ->. rewrite String.eqb_refl.
      reflexivity.
    + destruct (String.eqb_spec k k0) as [-> | Hne].
      * exfalso. apply Hnotin. eapply nth_error_In, Hk.
      * eapply IH; eassumption.
Qed.

Lemma fold_store_distinct (l : dict) :
  forall acc, NoDup (Py.keys (acc ++ l)) ->
              fold_left Report.store l acc = acc ++ l.
Proof.
  induction l as [| [k v] l IH]; intros acc H; simpl.
  - now rewrite app_nil_r.
  - unfold Report.store at 2. cbn [fst snd].
    rewrite dict_set_fresh.
    + rewrite IH; rewrite <- app_assoc; [reflexivity | exact H].
    + rewrite keys_app in H. simpl in H.
      apply NoDup_remove_2 in H. intros Hin. apply H, in_or_app. now left.
Qed.

(** ** Column labels of a table built from records *)

Lemma fold_add_key_fresh (ks : list string) :
  forall acc, NoDup (acc ++ ks) -> fold_left pd.add_key ks acc = acc ++ ks.
Proof.
  induction ks as [| k ks IH]; intros acc H; simpl.
  - now rewrite app_nil_r.
  - unfold pd.add_key at 2.
    assert (Hk : Py.mem k acc = false).
    { apply mem_not_In. apply NoDup_remove_2 in H. intros Hin.
      apply H, in_or_app. now left. }
    rewrite Hk, IH; rewrite <- app_assoc; [reflexivity | exact H].
Qed.

Lemma fold_add_key_known (ks : list string) :
  forall acc, (forall k, In k ks -> In k acc) ->
              fold_left pd.add_key ks acc = acc.
Proof.
  induction ks as [| k ks IH]; intros acc H; simpl; [reflexivity |].
  unfold pd.add_key at 2.
  assert (Hk : Py.mem k acc = true) by (apply mem_In, H; now left).
  rewrite Hk. apply IH. intros k' Hin. apply H. now right.
Qed.

Lemma union_keys_same (ks : list string) (d : dict) (records : list dict) :
  NoDup ks ->
  Forall (fun d => Py.keys d = ks) (d :: records) ->
  pd.union_keys (d :: records) = ks.
Proof.
  intros Hnd Hall. inversion Hall as [| ? ? Hd Hrest]; subst.
  unfold pd.union_keys. cbn [fold_left].
  rewrite fold_add_key_fresh by exact Hnd. cbn [app].
  induction Hrest as [| d' records Hd' Hrest IH]; simpl; [reflexivity |].
  rewrite Hd', fold_add_key_known by auto.
  apply IH. constructor; [reflexivity | exact Hrest].
Qed.

Lemma labels_of_records (records : list dict) :
  pd.labels (pd.of_records records) = pd.union_keys records.
Proof.
  unfold pd.labels, pd.of_records, Py.keys. cbn [columns].
  rewrite map_map. cbn [fst]. apply map_id.
Qed.

Lemma dict_get_map_keys {V : Type} (f : string -> V) (ks : list string)
      (k : string) :
  In k ks -> Py.dict_get k (map (fun k => (k, f k)) ks) = Some (f k).
Proof.
  induction ks as [| k0 ks IH]; simpl; [tauto |].
  destruct (String.eqb_spec k k0) as [-> | Hne]; [reflexivity |].
  intros [H | H]; [congruence | exact (IH H)].
Qed.

Lemma at_of_records (records : list dict) (i : nat) (k : string) :
  In k (pd.union_keys records) ->
  at_ (pd.of_records records) i k = option_map (pd.cell k) (nth_error records i).
Proof.
  intros Hin. unfold at_, pd.of_records. cbn [columns].
  rewrite (dict_get_map_keys (fun k => map (pd.cell k) records) _ _ Hin).
  apply nth_error_map.
Qed.

(** ** Date conversion and validation *)

Lemma run_convert_date (w : collaborators) (df : DataFrame) :
  match run w (convert_date df) with
  | Ok df' =>
      pd.labels df' = pd.labels df /\
      pd.len df' = pd.len df /\
      (forall i k, k <> "date" -> at_ df' i k = at_ df i k)
  | Err e => exists dates, parse_dates w dates = Err e
  end.
Proof.
  unfold convert_date. destruct (pd.has_column "date" df) eqn:Hc.
  - unfold pd.has_column, pd.labels in Hc.
    rewrite mem_keys_dict_get in Hc. unfold pd.getitem.
    destruct (Py.dict_get "date" (columns df)) as [dates |] eqn:Hd;
      [| discriminate].
    cbn [lift bind trigger run answer].
    destruct (parse_dates w dates) as [converted | e] eqn:Hp.
    + cbn [run]. repeat split.
      * unfold pd.labels, pd.setitem_series. cbn [columns].
        apply keys_dict_set_known.
        apply mem_In. rewrite mem_keys_dict_get, Hd. reflexivity.
      * intros i k Hk. unfold at_, pd.setitem_series. cbn [columns].
        rewrite dict_get_dict_set_other by exact Hk. reflexivity.
    + now exists dates.
  - cbn [run]. repeat split.
Qed.

Lemma mapM_Forall2 {A B : Type} (f : A -> result B) (l : list A) :
  forall bs, mapM f l = Ok bs -> Forall2 (fun a b => f a = Ok b) l bs.
Proof.
  induction l as [| a l IH]; intros bs H; cbn [mapM] in H.
  - injection H as <-. constructor.
  - destruct (f a) as [b | e] eqn:Hb; cbn [rbind] in H; [| discriminate].
    destruct (mapM f l) as [bs' | e]; cbn [rbind] in H; [| discriminate].
    injection H as <-. constructor; [exact Hb | now apply IH].
Qed.

Lemma mapM_row_data_outcome (r : Report.t)
      (rows : list (list string * list string)) :
  match mapM (Report.row_data r) rows with
  | Ok _ => Report.rows_numeric rows = true
  | Err e => e = ValueError /\ Report.rows_numeric rows = false
  end.
Proof.
  induction rows as [| row rows IH]; cbn [mapM Report.rows_numeric forallb];
    [reflexivity |].
  pose proof (row_data_outcome r row) as Hrow.
  destruct (Report.row_data r row) as [rec | e]; cbn [rbind].
  - destruct Hrow as [-> _]. fold (Report.rows_numeric rows).
    destruct (mapM (Report.row_data r) rows); cbn [rbind andb]; exact IH.
  - destruct Hrow as [-> ->]. split; reflexivity.
Qed.

(** What [get_data] makes of a report no row of which outruns the
    headers: the table of the row dictionaries, its [date] column
    converted, as the validation lets it through; or the first error on the
    way. *)
Lemma get_data_response_outcome (w : collaborators) (response : pyval)
      (r : Report.t) :
  Report.read response = Some r ->
  Report.within r = true ->
  validation_contract w ->
  match run w (get_data_response response) with
  | Ok df =>
      exists records,
        mapM (Report.row_data r) (Report.rows r) = Ok records /\
        pd.labels df = pd.union_keys records /\
        pd.len df = List.length records /\
        (forall i k, k <> "date" ->
                     at_ df i k = at_ (pd.of_records records) i k)
  | Err e =>
      (e = ValueError /\ Report.all_numeric r = false) \/
      (exists dates, parse_dates w dates = Err e) \/
      e = ValidationError
  end.
Proof.
  intros Hread Hwithin Hvalid.
  rewrite (get_data_response_read _ _ Hread), (flatten_read _ _ Hread Hwithin).
  pose proof (mapM_row_data_outcome r (Report.rows r)) as Hrows.
  destruct (mapM (Report.row_data r) (Report.rows r)) as [records | e].
  - rewrite run_bind.
    pose proof (run_convert_date w (pd.of_records records)) as Hconv.
    destruct (run w (convert_date (pd.of_records records))) as [df | e].
    + rewrite run_trigger. cbn [answer].
      destruct (Hvalid df) as [-> | ->]; [| right; right; reflexivity].
      destruct Hconv as (Hl & Hn & Hat).
      exists records. rewrite Hl, Hn, labels_of_records.
      repeat split. exact Hat.
    + right; left. exact Hconv.
  - cbn [run]. left. exact Hrows.
Qed.

(** ** Rows and columns of the table *)

Lemma matching_within (r : Report.t) :
  Report.matching r = true -> Report.within r = true.
Proof.
  unfold Report.matching, Report.within. rewrite !forallb_forall.
  intros H row Hin. specialize (H row Hin).
  unfold Report.row_matching in H. unfold Report.row_within.
  apply andb_true_iff in H as [H1 H2].
  apply Nat.eqb_eq in H1, H2. rewrite H1, H2, !Nat.leb_refl. reflexivity.
Qed.

(** With one value per header and distinct header names, the dictionary of
    a row is the list of its bindings. *)
Lemma row_data_matching (r : Report.t) (row : list string * list string)
      (rec : dict) :
  Report.row_matching r row = true ->
  NoDup (Report.column_names r) ->
  Report.row_data r row = Ok rec ->
  exists fs, mapM Py.float_of_str (snd row) = Ok fs /\
             List.length fs = List.length (snd row) /\
             rec = Report.bindings r row fs /\
             Py.keys rec = Report.column_names r.
Proof.
  intros Hm Hnd Hrec.
  pose proof (row_data_outcome r row) as H. rewrite Hrec in H.
  destruct H as (_ & fs & Hfs & Hlen & ->).
  apply andb_true_iff in Hm as [H1 H2]. apply Nat.eqb_eq in H1, H2.
  assert (Hkeys : Py.keys (Report.bindings r row fs) = Report.column_names r).
  { unfold Report.bindings, Report.column_names.
    rewrite keys_app, !keys_combine; [reflexivity | |];
      rewrite length_map; lia. }
  exists fs. repeat split; try assumption.
  - apply (fold_store_distinct _ []). cbn [app]. now rewrite Hkeys.
  - rewrite (fold_store_distinct _ []); [exact Hkeys |].
    cbn [app]. now rewrite Hkeys.
Qed.

Lemma records_keys (r : Report.t) (rows : list (list string * list string))
      (records : list dict) :
  forallb (Report.row_matching r) rows = true ->
  NoDup (Report.column_names r) ->
  mapM (Report.row_data r) rows = Ok records ->
  List.length records = List.length rows /\
  Forall (fun d => Py.keys d = Report.column_names r) records.
Proof.
  intros Hm Hnd Hrec. apply mapM_Forall2 in Hrec.
  induction Hrec as [| row rec rows records Hrow _ IH]; [split; constructor |].
  cbn [forallb] in Hm. apply andb_true_iff in Hm as [Hm1 Hm2].
  destruct (IH Hm2) as [IH1 IH2].
  destruct (row_data_matching _ _ _ Hm1 Hnd Hrow) as (fs & _ & _ & _ & Hk).
  split; [simpl; now f_equal | now constructor].
Qed.

(** C3, as the code has it.  On a response that reads as a report with one
    value per header in every row and pairwise distinct header names,
    [get_data] returns a table of exactly [len(rows)] rows whose columns
    are, for a non-empty [rows], the dimension header names in order
    followed by the metric header names in order, and for an empty [rows]
    no column at all; unless a metric value is not numeric ([ValueError]),
    the date conversion raises, or the validation rejects the table. *)
Theorem get_data_rows_and_columns :
  forall (w : collaborators) (self : GoogleAnalyticsConnector.t)
         (metrics : list string) (dimensions : option (list string))
         (start_date end_date : option string)
         (response : pyval) (r : Report.t),
    answer w (get_data_call self metrics (default ["date"] dimensions)
                            (default "30daysAgo" start_date)
                            (default "today" end_date)) = Ok response ->
    Report.read response = Some r ->
    Report.matching r = true ->
    Report.distinct (Report.column_names r) = true ->
    validation_contract w ->
    match run w (get_data self metrics dimensions start_date end_date) with
    | Ok df =>
        pd.len df = List.length (Report.rows r) /\
        pd.labels df =
          match Report.rows r with
          | [] => []
          | _ :: _ => Report.dimension_headers r ++ Report.metric_headers r
          end
    | Err e =>
        (e = ValueError /\ Report.all_numeric r = false) \/
        (exists dates, parse_dates w dates = Err e) \/
        e = ValidationError
    end.
Proof.
  intros w self metrics dimensions start_date end_date response r
         Hanswer Hread Hmatch Hdistinct Hvalid.
  rewrite run_get_data, Hanswer.
  pose proof (get_data_response_outcome w response r Hread
                (matching_within r Hmatch) Hvalid) as H.
  destruct (run w (get_data_response response)) as [df | e]; [| exact H].
  destruct H as (records & Hrec & Hlabels & Hlen & _).
  apply distinct_NoDup in Hdistinct.
  destruct (records_keys r _ _ Hmatch Hdistinct Hrec) as [Hn Hkeys].
  split; [congruence |]. rewrite Hlabels.
  destruct records as [| d records];
    destruct (Report.rows r) as [| row rows]; try discriminate Hn.
  - reflexivity.
  - apply (union_keys_same _ _ _ Hdistinct Hkeys).
Qed.

Lemma get_data_rows_and_columns_witness :
  let w := mocked scenario_response in
  let self := GoogleAnalyticsConnector.__init__ "token" "1" in
  exists df,
    run w (get_data self ["sessions"; "users"] (Some ["source"; "medium"])
                    None None) = Ok df /\
    pd.len df = 1 /\
    pd.labels df = ["source"; "medium"; "sessions"; "users"].
Proof.
  intros w self.
  pose proof (get_data_rows_and_columns
                w self ["sessions"; "users"] (Some ["source"; "medium"])
                None None scenario_response
                {| Report.dimension_headers := ["source"; "medium"];
                   Report.metric_headers := ["sessions"; "users"];
                   Report.rows := [(["google"; "organic"], ["10"; "8"])] |}
                eq_refl eq_refl eq_refl eq_refl) as H.
  assert (Hvalid : validation_contract w).
  { intros df. simpl. destruct (consistent df); [left | right]; reflexivity. }
  specialize (H Hvalid).
  destruct (run w (get_data self ["sessions"; "users"]
                            (Some ["source"; "medium"]) None None))
    as [df | e] eqn:Hrun.
  - exists df. split; [reflexivity | exact H].
  - exfalso. vm_compute in Hrun. discriminate Hrun.
Defined.

(** C3 as stated fails twice.  A response with headers and an empty [rows]
    list gives a table without columns; a response whose dimension header
    and metric header carry the same name gives one column, not two. *)
Lemma get_data_columns_counterexample :
  let self := GoogleAnalyticsConnector.__init__ "token" "1" in
  let name n := PDict [("name", PStr n)] in
  let value v := PDict [("value", PStr v)] in
  (let response :=
     PDict [ ("dimensionHeaders", PList [name "date"]);
             ("metricHeaders", PList [name "sessions"]);
             ("rows", PList []) ] in
   exists r df,
     Report.read response = Some r /\
     Report.matching r = true /\
     run (mocked response) (get_data self ["sessions"] None None None) = Ok df /\
     pd.len df = List.length (Report.rows r) /\
     Report.dimension_headers r ++ Report.metric_headers r
       = ["date"; "sessions"] /\
     pd.labels df = [] /\
     pd.labels df <> Report.dimension_headers r ++ Report.metric_headers r) /\
  (let response :=
     PDict [ ("dimensionHeaders", PList [name "country"]);
             ("metricHeaders", PList [name "country"]);
             ("rows",
              PList [PDict [("dimensionValues", PList [value "FR"]);
                            ("metricValues", PList [value "3"])]]) ] in
   exists r df,
     Report.read response = Some r /\
     Report.matching r = true /\
     run (mocked response)
         (get_data self ["country"] (Some ["country"]) None None) = Ok df /\
     pd.len df = List.length (Report.rows r) /\
     Report.dimension_headers r ++ Report.metric_headers r
       = ["country"; "country"] /\
     pd.labels df = ["country"] /\
     pd.labels df <> Report.dimension_headers r ++ Report.metric_headers r).
Proof.
  intros self name value. split.
  - eexists. eexists. split; [reflexivity |]. split; [reflexivity |].
    split; [vm_compute; reflexivity |].
    repeat (split; [reflexivity |]). discriminate.
  - eexists. eexists. split; [reflexivity |]. split; [reflexivity |].
    split; [vm_compute; reflexivity |].
    repeat (split; [reflexivity |]). discriminate.
Qed.

(** ** What a row binds *)

Lemma NoDup_app_inv {A : Type} (l1 l2 : list A) :
  NoDup (l1 ++ l2) ->
  NoDup l1 /\ NoDup l2 /\ (forall x, In x l1 -> In x l2 -> False).
Proof.
  induction l1 as [| a l1 IH]; simpl; intros H.
  - repeat split; [constructor | exact H | tauto].
  - inversion H as [| ? ? Hnotin Hnd]; subst.
    destruct (IH Hnd) as (H1 & H2 & H3). repeat split.
    + constructor; [| exact H1]. intros Hin. apply Hnotin, in_or_app. now left.
    + exact H2.
    + intros x [-> | Hin] Hin2.
      * apply Hnotin, in_or_app. now right.
      * exact (H3 x Hin Hin2).
Qed.

Lemma Forall2_nth_error {A B : Type} (P : A -> B -> Prop)
      (l : list A) (l' : list B) :
  Forall2 P l l' ->
  forall j a, nth_error l j = Some a ->
              exists b, nth_error l' j = Some b /\ P a b.
Proof.
  induction 1 as [| a0 b0 l l' H0 _ IH]; intros j a Hj.
  - destruct j; discriminate.
  - destruct j as [| j]; simpl in *.
    + injection Hj as <-. now exists b0.
    + exact (IH j a Hj).
Qed.

Lemma Forall2_impl_In {A B : Type} (P Q : A -> B -> Prop)
      (l : list A) (l' : list B) :
  Forall2 P l l' ->
  (forall a b, In a l -> P a b -> Q a b) ->
  Forall2 Q l l'.
Proof.
  induction 1 as [| a b l l' H0 _ IH]; intros Himpl; constructor.
  - apply Himpl; [now left | exact H0].
  - apply IH. intros a' b' Hin. apply Himpl. now right.
Qed.

(** With one value per header and distinct header names, the dictionary of
    a row holds each dimension value under the name of its header, as the
    string it is, and each metric value under the name of its header, as
    the float [float] makes of it. *)
Lemma bindings_lookup (r : Report.t) (row : list string * list string)
      (rec : dict) :
  Report.row_matching r row = true ->
  NoDup (Report.column_names r) ->
  Report.row_data r row = Ok rec ->
  (forall j n v,
      nth_error (Report.dimension_headers r) j = Some n ->
      nth_error (fst row) j = Some v ->
      Py.dict_get n rec = Some (PStr v)) /\
  (forall j n v,
      nth_error (Report.metric_headers r) j = Some n ->
      nth_error (snd row) j = Some v ->
      exists x, Py.float (PStr v) = Ok x /\
                Py.dict_get n rec = Some (PFloat x)).
Proof.
  intros Hm Hnd Hrec.
  destruct (row_data_matching _ _ _ Hm Hnd Hrec) as (fs & Hfs & _ & -> & _).
  destruct (NoDup_app_inv _ _ Hnd) as (Hd & Hmets & Hdisj).
  unfold Report.bindings. split.
  - intros j n v Hn Hv. apply dict_get_app_left.
    apply (dict_get_combine _ _ j); try assumption.
    rewrite nth_error_map, Hv. reflexivity.
  - intros j n v Hn Hv.
    destruct (Forall2_nth_error _ _ _ (mapM_Forall2 _ _ _ Hfs) j v Hv)
      as (x & Hx & Hparse).
    exists x. split; [exact Hparse |].
    rewrite dict_get_app.
    + apply (dict_get_combine _ _ j); try assumption.
      rewrite nth_error_map, Hx. reflexivity.
    + intros Hin. apply keys_combine_incl in Hin.
      apply (Hdisj n Hin). eapply nth_error_In, Hn.
Qed.

(** C4. On a response that reads as a report no row of which outruns the
    headers, the loop stores, row by row, [dimensionValues[j]] under
    [dimensionHeaders[j].name] as the string it is and then
    [float(metricValues[j])] under [metricHeaders[j].name], in this order,
    so that with one value per header and distinct header names every row
    dictionary reads back each value under the name of its header; the
    loop goes through when every metric value is numeric; [float] of a
    string that is not numeric raises [ValueError] (the conversion error
    of the taxonomy), and when a metric value is such a string [get_data]
    raises that error and nothing else, before any further call. *)
Theorem get_data_binds_values :
  forall (response : pyval) (r : Report.t),
    Report.read response = Some r ->
    Report.within r = true ->
    flatten response = mapM (Report.row_data r) (Report.rows r) /\
    (Report.matching r = true ->
     Report.distinct (Report.column_names r) = true ->
     forall flattened_data,
       flatten response = Ok flattened_data ->
       Forall2
         (fun row row_data =>
            (forall j n v,
                nth_error (Report.dimension_headers r) j = Some n ->
                nth_error (fst row) j = Some v ->
                Py.dict_get n row_data = Some (PStr v)) /\
            (forall j n v,
                nth_error (Report.metric_headers r) j = Some n ->
                nth_error (snd row) j = Some v ->
                exists x, Py.float (PStr v) = Ok x /\
                          Py.dict_get n row_data = Some (PFloat x)))
         (Report.rows r) flattened_data) /\
    (Report.all_numeric r = true ->
     exists flattened_data, flatten response = Ok flattened_data) /\
    (forall s, Report.numeric s = false -> Py.float (PStr s) = Err ValueError) /\
    (Report.all_numeric r = false ->
     flatten response = Err ValueError /\
     get_data_response response = Raise ValueError /\
     forall w, run w (get_data_response response) = Err ValueError).
Proof.
  intros response r Hread Hwithin.
  pose proof (flatten_read _ _ Hread Hwithin) as Hflat.
  assert (Hout : match mapM (Report.row_data r) (Report.rows r) with
                 | Ok _ => Report.all_numeric r = true
                 | Err e => e = ValueError /\ Report.all_numeric r = false
                 end)
    by exact (mapM_row_data_outcome r (Report.rows r)).
  split; [exact Hflat |]. repeat split.
  - intros Hmatch Hdistinct records Hrec. apply distinct_NoDup in Hdistinct.
    rewrite Hflat in Hrec. apply mapM_Forall2 in Hrec.
    unfold Report.matching in Hmatch. rewrite forallb_forall in Hmatch.
    apply (Forall2_impl_In _ _ _ _ Hrec). intros row rec Hin Hrow.
    apply bindings_lookup; try assumption. apply Hmatch, Hin.
  - intros Hnum. rewrite Hflat.
    destruct (mapM (Report.row_data r) (Report.rows r)) as [records | e].
    + now exists records.
    + destruct Hout as [_ Hout]. congruence.
  - intros s Hs. cbn [Py.float]. unfold Report.numeric in Hs.
    destruct (Py.float_of_str s) as [x | e] eqn:He; [discriminate |].
    now rewrite (float_of_str_error _ _ He).
  - rewrite Hflat.
    destruct (mapM (Report.row_data r) (Report.rows r)); [congruence |].
    destruct Hout as [-> _]. reflexivity.
  - rewrite (get_data_response_read _ _ Hread), Hflat.
    destruct (mapM (Report.row_data r) (Report.rows r)); [congruence |].
    destruct Hout as [-> _]. reflexivity.
  - intros w. rewrite (get_data_response_read _ _ Hread), Hflat.
    destruct (mapM (Report.row_data r) (Report.rows r)); [congruence |].
    destruct Hout as [-> _]. reflexivity.
Qed.

Lemma get_data_binds_values_witness :
  let name n := PDict [("name", PStr n)] in
  let value v := PDict [("value", PStr v)] in
  let response :=
    PDict [ ("dimensionHeaders", PList [name "source"]);
            ("metricHeaders", PList [name "sessions"]);
            ("rows",
             PList [PDict [("dimensionValues", PList [value "google"]);
                           ("metricValues", PList [value "n/a"])]]) ] in
  (exists flattened_data, flatten scenario_response = Ok flattened_data) /\
  get_data_response response = Raise ValueError.
Proof.
  intros name value response. split.
  - destruct (get_data_binds_values
                scenario_response
                {| Report.dimension_headers := ["source"; "medium"];
                   Report.metric_headers := ["sessions"; "users"];
                   Report.rows := [(["google"; "organic"], ["10"; "8"])] |}
                eq_refl eq_refl) as (_ & _ & H & _).
    exact (H eq_refl).
  - destruct (get_data_binds_values
                response
                {| Report.dimension_headers := ["source"];
                   Report.metric_headers := ["sessions"];
                   Report.rows := [(["google"], ["n/a"])] |}
                eq_refl eq_refl) as (_ & _ & _ & _ & H).
    exact (proj1 (proj2 (H eq_refl))).
Defined.

(** ** A metric value through the table *)

(** C9. The string ["123.45"] becomes the double nearest to 123.45, and on
    a response that reads as a report (one value per header, distinct
    header names) that double is the cell of the returned table at the row
    of the value and the column of its metric header (any header but
    [date], which the date conversion rewrites); unless a metric value is
    not numeric, the date conversion raises, or the validation rejects the
    table. *)
Theorem get_data_metric_roundtrip :
  forall (w : collaborators) (self : GoogleAnalyticsConnector.t)
         (metrics : list string) (dimensions : option (list string))
         (start_date end_date : option string)
         (response : pyval) (r : Report.t)
         (i j : nat) (row : list string * list string) (name : string),
    answer w (get_data_call self metrics (default ["date"] dimensions)
                            (default "30daysAgo" start_date)
                            (default "today" end_date)) = Ok response ->
    Report.read response = Some r ->
    Report.matching r = true ->
    Report.distinct (Report.column_names r) = true ->
    validation_contract w ->
    nth_error (Report.rows r) i = Some row ->
    nth_error (snd row) j = Some "123.45" ->
    nth_error (Report.metric_headers r) j = Some name ->
    name <> "date" ->
    let x := S754_finite false 8687021468732621 (-46) in
    Py.float (PStr "123.45") = Ok x /\
    Float64.nearest_normal (Qmake 12345 100) x /\
    match run w (get_data self metrics dimensions start_date end_date) with
    | Ok df => at_ df i name = Some (PFloat x)
    | Err e =>
        (e = ValueError /\ Report.all_numeric r = false) \/
        (exists dates, parse_dates w dates = Err e) \/
        e = ValidationError
    end.
Proof.
  intros w self metrics dimensions start_date end_date response r i j row name
         Hanswer Hread Hmatch Hdistinct Hvalid Hrow Hvalue Hname Hdate x.
  assert (Hx : Py.float (PStr "123.45") = Ok x) by (vm_compute; reflexivity).
  split; [exact Hx |]. split.
  { unfold Float64.nearest_normal, x. split; [reflexivity |].
    split; [reflexivity |]. split.
    - vm_compute. reflexivity.
    - intros H. discriminate H. }
  rewrite run_get_data, Hanswer.
  pose proof (get_data_response_outcome w response r Hread
                (matching_within r Hmatch) Hvalid) as H.
  destruct (run w (get_data_response response)) as [df | e]; [| exact H].
  destruct H as (records & Hrec & _ & _ & Hat).
  apply distinct_NoDup in Hdistinct.
  destruct (records_keys r _ _ Hmatch Hdistinct Hrec) as [_ Hkeys].
  destruct (Forall2_nth_error _ _ _ (mapM_Forall2 _ _ _ Hrec) i row Hrow)
    as (rec & Hreci & Hrd).
  assert (Hm : Report.row_matching r row = true).
  { unfold Report.matching in Hmatch. rewrite forallb_forall in Hmatch.
    eapply Hmatch, nth_error_In, Hrow. }
  destruct (bindings_lookup r row rec Hm Hdistinct Hrd) as [_ Hmet].
  destruct (Hmet j name "123.45" Hname Hvalue) as (y & Hy & Hget).
  rewrite Hx in Hy. injection Hy as <-.
  rewrite (Hat i name Hdate), at_of_records.
  - rewrite Hreci. cbn [option_map]. unfold pd.cell. rewrite Hget. reflexivity.
  - destruct records as [| d records]; [destruct i; discriminate |].
    rewrite (union_keys_same _ _ _ Hdistinct Hkeys).
    apply in_or_app. right. eapply nth_error_In, Hname.
Qed.

Lemma get_data_metric_roundtrip_witness :
  let name n := PDict [("name", PStr n)] in
  let value v := PDict [("value", PStr v)] in
  let response :=
    PDict [ ("dimensionHeaders", PList [name "country"]);
            ("metricHeaders", PList [name "sessions"; name "bounceRate"]);
            ("rows",
             PList [PDict [("dimensionValues", PList [value "FR"]);
                           ("metricValues", PList [value "7"; value "0.5"])];
                    PDict [("dimensionValues", PList [value "DE"]);
                           ("metricValues",
                            PList [value "9"; value "123.45"])]]) ] in
  let w := mocked response in
  let self := GoogleAnalyticsConnector.__init__ "token" "1" in
  exists df,
    run w (get_data self ["sessions"; "bounceRate"] (Some ["country"])
                    None None) = Ok df /\
    at_ df 1 "bounceRate"
      = Some (PFloat (S754_finite false 8687021468732621 (-46))).
Proof.
  intros name value response w self.
  assert (Hvalid : validation_contract w).
  { intros df. simpl. destruct (consistent df); [left | right]; reflexivity. }
  assert (Hne : "bounceRate" <> "date") by discriminate.
  destruct (get_data_metric_roundtrip
              w self ["sessions"; "bounceRate"] (Some ["country"]) None None
              response
              {| Report.dimension_headers := ["country"];
                 Report.metric_headers := ["sessions"; "bounceRate"];
                 Report.rows := [(["FR"], ["7"; "0.5"]);
                                 (["DE"], ["9"; "123.45"])] |}
              1 1 (["DE"], ["9"; "123.45"]) "bounceRate"
              eq_refl eq_refl eq_refl eq_refl Hvalid eq_refl eq_refl eq_refl Hne)
    as (_ & _ & H).
  destruct (run w (get_data self ["sessions"; "bounceRate"] (Some ["country"])
                            None None)) as [df | e] eqn:Hrun.
  - exists df. split; [reflexivity | exact H].
  - exfalso. vm_compute in Hrun. discriminate Hrun.
Defined.

(** ** Values past the headers *)

(** C10. On a response that reads as a report, the flattening loop returns
    only if no row has more dimension values than there are dimension
    headers or more metric values than metric headers.  The subscript
    [headers[i]] at an index past the list raises [IndexError]; so when
    some row has more values than headers (the header lists being shorter,
    or left out and so empty), [get_data] returns no table, empty or
    partial: it raises, [IndexError] when the metric values are numeric,
    and otherwise that or the [ValueError] of a metric met before. *)
Theorem get_data_index_error :
  forall (response : pyval) (r : Report.t),
    Report.read response = Some r ->
    (forall flattened_data,
        flatten response = Ok flattened_data -> Report.within r = true) /\
    (forall headers i,
        List.length headers <= i -> Py.list_getitem headers i = Err IndexError) /\
    (Report.within r = false ->
     exists e,
       flatten response = Err e /\
       get_data_response response = Raise e /\
       (forall w, run w (get_data_response response) = Err e) /\
       (e = IndexError \/ (e = ValueError /\ Report.all_numeric r = false)) /\
       (Report.all_numeric r = true -> e = IndexError)).
Proof.
  intros response r Hread.
  destruct (flatten_read_rows _ _ Hread) as (rs & Htr & Hflat).
  pose proof (flatten_rows_outcome r rs _ Htr) as Hout. cbv zeta in Hout.
  rewrite <- Hflat in Hout. fold (Report.within r) in Hout.
  fold (Report.all_numeric r) in Hout.
  split; [| split].
  - intros records Hrec.
    destruct Hout as [[Hw _] | [_ [H | [H _]]]]; [exact Hw | |]; congruence.
  - intros headers i Hi. unfold Py.list_getitem.
    apply nth_error_None in Hi. rewrite Hi. reflexivity.
  - intros Hw.
    destruct Hout as [[Hw' _] | [_ Hout]]; [congruence |].
    assert (He : exists e, flatten response = Err e /\
                           (e = IndexError \/
                            (e = ValueError /\ Report.all_numeric r = false))).
    { destruct Hout as [H | [H Hn]].
      - exists IndexError. split; [exact H | now left].
      - exists ValueError. split; [exact H | right; now split]. }
    destruct He as (e & He & Hkind). exists e.
    assert (Hresp : get_data_response response = Raise e)
      by (rewrite (get_data_response_read _ _ Hread), He; reflexivity).
    repeat split; try assumption.
    + intros w. rewrite Hresp. reflexivity.
    + intros Hnum. destruct Hkind as [-> | [_ Hn]]; [reflexivity | congruence].
Qed.

Lemma get_data_index_error_witness :
  let value v := PDict [("value", PStr v)] in
  let response :=
    PDict [ ("rows",
             PList [PDict [("dimensionValues", PList [value "20240115"]);
                           ("metricValues", PList [value "10"])]]) ] in
  get_data_response response = Raise IndexError /\
  run (mocked response)
      (get_data (GoogleAnalyticsConnector.__init__ "token" "1")
                ["sessions"] None None None) = Err IndexError.
Proof.
  intros value response.
  destruct (get_data_index_error
              response
              {| Report.dimension_headers := [];
                 Report.metric_headers := [];
                 Report.rows := [(["20240115"], ["10"])] |}
              eq_refl) as (_ & _ & H).
  destruct (H eq_refl) as (e & _ & Hresp & Hrun & _ & He).
  rewrite (He eq_refl) in Hresp, Hrun.
  split; [exact Hresp |].
  rewrite run_get_data. exact (Hrun (mocked response)).
Defined.

(** ** The traffic sources of the GA4 connector *)

(** C5. [get_traffic_sources] is [get_data] on the metrics sessions and
    users and the dimensions source and medium; when the request is
    answered with the response of the scenario and the validation lets
    consistent tables through, it returns the table of exactly one row
    [{source: "google", medium: "organic", sessions: 10.0, users: 8.0}]. *)
Theorem ga_get_traffic_sources_scenario :
  forall (w : collaborators) (self : GoogleAnalyticsConnector.t)
         (start_date end_date : option string),
    answer w (get_data_call self ["sessions"; "users"] ["source"; "medium"]
                            (default "30daysAgo" start_date)
                            (default "today" end_date))
      = Ok scenario_response ->
    (forall df, consistent df = true -> validate_data w df = Ok df) ->
    get_traffic_sources self start_date end_date =
      get_data self ["sessions"; "users"] (Some ["source"; "medium"])
               (Some (default "30daysAgo" start_date))
               (Some (default "today" end_date)) /\
    exists df,
      run w (get_traffic_sources self start_date end_date) = Ok df /\
      pd.len df = 1 /\
      pd.records df =
        [[ ("source", PStr "google"); ("medium", PStr "organic");
           ("sessions", PFloat (Float64.of_Z 10));
           ("users", PFloat (Float64.of_Z 8)) ]] /\
      Float64.to_Q (Float64.of_Z 10) = Some (Qmake 10 1) /\
      Float64.to_Q (Float64.of_Z 8) = Some (Qmake 8 1).
Proof.
  intros w self start_date end_date Hanswer Hvalid.
  split; [reflexivity |].
  unfold get_traffic_sources. cbv zeta. rewrite run_get_data.
  cbn [default]. rewrite Hanswer.
  assert (Hresp : exists df,
             get_data_response scenario_response = Vis (_validate_data df) Ret /\
             consistent df = true /\
             pd.len df = 1 /\
             pd.records df =
               [[ ("source", PStr "google"); ("medium", PStr "organic");
                  ("sessions", PFloat (Float64.of_Z 10));
                  ("users", PFloat (Float64.of_Z 8)) ]]).
  { eexists. split; [vm_compute; reflexivity |]. repeat split. }
  destruct Hresp as (df & -> & Hc & Hlen & Hrecords).
  exists df. cbn [run answer]. rewrite (Hvalid df Hc).
  repeat split; try assumption; vm_compute; reflexivity.
Qed.

Lemma ga_get_traffic_sources_scenario_witness :
  exists df,
    run (mocked scenario_response)
        (get_traffic_sources (GoogleAnalyticsConnector.__init__ "token" "1")
                             None None) = Ok df /\
    pd.records df =
      [[ ("source", PStr "google"); ("medium", PStr "organic");
         ("sessions", PFloat (Float64.of_Z 10));
         ("users", PFloat (Float64.of_Z 8)) ]].
Proof.
  assert (Hvalid : forall df, consistent df = true ->
                              validate_data (mocked scenario_response) df = Ok df).
  { intros df H. simpl. rewrite H. reflexivity. }
  destruct (ga_get_traffic_sources_scenario
              (mocked scenario_response)
              (GoogleAnalyticsConnector.__init__ "token" "1")
              None None eq_refl Hvalid) as (_ & df & Hrun & _ & Hrec & _).
  exists df. split; [exact Hrun | exact Hrec].
Defined.

(** ** The website overview on other responses *)

Lemma dict_get_dict_set_same {V : Type} (k : string) (v : V)
      (d : list (string * V)) :
  Py.dict_get k (Py.dict_set k v d) = Some v.
Proof.
  induction d as [| [k' v'] d IH]; simpl.
  - rewrite String.eqb_refl. reflexivity.
  - destruct (String.eqb_spec k k') as [-> | Hne]; simpl.
    + rewrite String.eqb_refl. reflexivity.
    + destruct (String.eqb_spec k k'); [contradiction | exact IH].
Qed.

Lemma as_records_length (l : list pyval) (records : list dict) :
  pd.as_records l = Some records -> List.length records = List.length l.
Proof.
  revert records; induction l as [| v l IH]; intros records H.
  - injection H as <-. reflexivity.
  - destruct v; try discriminate H. simpl in H.
    destruct (pd.as_records l) as [records' |]; [| discriminate].
    injection H as <-. simpl. f_equal. now apply IH.
Qed.

(** A response without [visits] gives the empty table, with no further
    call. *)
Lemma get_website_overview_without_visits (domain : string) (d : dict) :
  Py.dict_get "visits" d = None ->
  SimilarwebConnector.get_website_overview_response domain (PDict d)
  = Ret pd.empty.
Proof.
  intros H. unfold SimilarwebConnector.get_website_overview_response.
  cbn [Py.contains]. rewrite mem_keys_dict_get, H. reflexivity.
Qed.

(** When [visits] is a list of dictionaries one of which has a [date], the
    table has one row per entry, the input domain on every row of its
    [domain] column, and the converted dates as its [date] column; unless
    the date conversion raises or the validation rejects the table. *)
Lemma get_website_overview_rows (w : collaborators) (domain : string)
      (d : dict) (visits : list pyval) (records : list dict) :
  Py.dict_get "visits" d = Some (PList visits) ->
  pd.as_records visits = Some records ->
  In "date" (pd.union_keys records) ->
  validation_contract w ->
  match run w (SimilarwebConnector.get_website_overview_response
                 domain (PDict d)) with
  | Ok df =>
      pd.len df = List.length visits /\
      pd.getitem df "domain" = Ok (repeat (PStr domain) (List.length visits)) /\
      exists converted,
        parse_dates w (map (pd.cell "date") records) = Ok converted /\
        pd.getitem df "date" = Ok (pd.align (List.length visits) converted)
  | Err e => (exists dates, parse_dates w dates = Err e) \/ e = ValidationError
  end.
Proof.
  intros Hvisits Hrecords Hdate Hvalid.
  unfold SimilarwebConnector.get_website_overview_response.
  cbn [Py.contains]. rewrite mem_keys_dict_get, Hvisits.
  cbn [lift bind negb Py.getitem]. rewrite Hvisits. cbn [lift bind].
  unfold pd.DataFrame. rewrite Hrecords. cbn [lift bind].
  assert (Hcol : pd.getitem (pd.setitem_scalar (pd.of_records records) "domain"
                                               (PStr domain)) "date"
                 = Ok (map (pd.cell "date") records)).
  { unfold pd.getitem, pd.setitem_scalar, pd.of_records. cbn [columns index].
    rewrite dict_get_dict_set_other by discriminate.
    rewrite (dict_get_map_keys (fun k => map (pd.cell k) records) _ _ Hdate).
    reflexivity. }
  rewrite Hcol. cbn [lift bind trigger run answer].
  destruct (parse_dates w (map (pd.cell "date") records)) as [converted | e]
    eqn:Hparse;
    [| left; exists (map (pd.cell "date") records); exact Hparse].
  cbn [run answer].
  match goal with
  | |- context [validate_data w ?df] => destruct (Hvalid df) as [-> | ->]
  end; [| now right].
  pose proof (as_records_length _ _ Hrecords) as Hlen.
  unfold pd.len, pd.getitem, pd.setitem_series, pd.setitem_scalar,
    pd.of_records.
  cbn [index columns]. rewrite Hlen. split; [reflexivity |]. split.
  - rewrite dict_get_dict_set_other by discriminate.
    rewrite dict_get_dict_set_same. reflexivity.
  - exists converted. split; [reflexivity |].
    rewrite dict_get_dict_set_same. reflexivity.
Qed.


(** * Further properties of the connectors *)

(** ** The request headers *)

(** Whatever headers the base connector supplies, [_get_headers] of either
    connector returns them with [Authorization] set to ["Bearer "] followed
    by the key of the connector: a value the base had put there is replaced
    in place, every other header keeps its value, and the header names are
    those of the base, with [Authorization] added last when it was not
    among them. *)
Theorem get_headers_authorization :
  forall (ga : GoogleAnalyticsConnector.t) (sw : SimilarwebConnector.t)
         (super_headers : list (string * string)),
    let added :=
      if Py.mem "Authorization" (Py.keys super_headers)
      then Py.keys super_headers
      else Py.keys super_headers ++ ["Authorization"] in
    (Py.dict_get "Authorization" (_get_headers ga super_headers)
       = Some ("Bearer " ++ api_key ga)%string /\
     (forall k, k <> "Authorization" ->
                Py.dict_get k (_get_headers ga super_headers)
                = Py.dict_get k super_headers) /\
     Py.keys (_get_headers ga super_headers) = added) /\
    (Py.dict_get "Authorization" (SimilarwebConnector._get_headers sw super_headers)
       = Some ("Bearer " ++ SimilarwebConnector.api_key sw)%string /\
     (forall k, k <> "Authorization" ->
                Py.dict_get k (SimilarwebConnector._get_headers sw super_headers)
                = Py.dict_get k super_headers) /\
     Py.keys (SimilarwebConnector._get_headers sw super_headers) = added).
Proof.
  intros ga sw super_headers added.
  assert (Hkeys : forall v : string,
             Py.keys (Py.dict_set "Authorization" v super_headers) = added).
  { intros v. subst added.
    destruct (Py.mem "Authorization" (Py.keys super_headers)) eqn:Hm.
    - apply keys_dict_set_known, mem_In, Hm.
    - rewrite dict_set_fresh by (apply mem_not_In, Hm).
      rewrite keys_app. reflexivity. }
  unfold _get_headers, SimilarwebConnector._get_headers. cbv zeta.
  repeat split;
    try apply dict_get_dict_set_same;
    try apply Hkeys;
    intros k Hk; apply dict_get_dict_set_other; exact Hk.
Qed.

(** ** The convenience queries and the catalog *)

(** Every metric and dimension [get_traffic_sources] asks for is listed by
    [get_available_datasets]; of the names [get_traffic_overview] asks for,
    exactly one is not: it requests [averageSessionDuration] where the
    catalog lists [sessionDuration]. *)
Theorem convenience_queries_and_catalog :
  forall (self : GoogleAnalyticsConnector.t)
         (start_date end_date : option string),
  exists catalog,
    get_available_datasets self = Ret catalog /\
    let listed type name :=
      existsb (Py.str_eq name) (names_of_type type catalog) in
    let sources := get_traffic_sources self start_date end_date in
    let overview := get_traffic_overview self start_date end_date in
    forallb (listed "metric") (request_names sources "metrics") = true /\
    forallb (listed "dimension") (request_names sources "dimensions") = true /\
    forallb (listed "dimension") (request_names overview "dimensions") = true /\
    filter (fun name => negb (listed "metric" name))
           (request_names overview "metrics") = ["averageSessionDuration"] /\
    request_names sources "metrics" = ["sessions"; "users"] /\
    request_names sources "dimensions" = ["source"; "medium"] /\
    request_names overview "dimensions" = ["date"].
Proof.
  intros self start_date end_date. eexists. split; [reflexivity |].
  cbv zeta. repeat split; reflexivity.
Qed.

(** ** A request determines its query *)

Lemma string_length_append (a b : string) :
  String.length (a ++ b) = String.length a + String.length b.
Proof. induction a as [| c a IH]; simpl; [reflexivity | now rewrite IH]. Qed.

Lemma string_append_inj_r (a b t : string) :
  (a ++ t = b ++ t)%string -> a = b.
Proof.
  revert b; induction a as [| c a IH]; intros [| c' b] H; simpl in H.
  - reflexivity.
  - apply (f_equal String.length) in H. simpl in H.
    rewrite string_length_append in H. lia.
  - apply (f_equal String.length) in H. simpl in H.
    rewrite string_length_append in H. lia.
  - injection H as -> H. f_equal. apply IH, H.
Qed.

Lemma map_named_inj (l1 l2 : list string) :
  map named l1 = map named l2 -> l1 = l2.
Proof.
  revert l2; induction l1 as [| a l1 IH]; intros [| b l2] H;
    try discriminate H; [reflexivity |].
  simpl in H. injection H as -> H. f_equal. apply IH, H.
Qed.

Lemma make_request_inj (e1 e2 : string) (a1 a2 : list pyval) (k1 k2 : dict) :
  _make_request e1 a1 k1 = _make_request e2 a2 k2 ->
  e1 = e2 /\ a1 = a2 /\ k1 = k2.
Proof.
  intros H.
  pose proof (f_equal (fun c : call pyval =>
                         match c with
                         | _make_request e _ _ => e
                         | _ => EmptyString
                         end) H) as He.
  pose proof (f_equal (fun c : call pyval =>
                         match c with
                         | _make_request _ a _ => a
                         | _ => []
                         end) H) as Ha.
  pose proof (f_equal (fun c : call pyval =>
                         match c with
                         | _make_request _ _ k => k
                         | _ => []
                         end) H) as Hk.
  repeat split; assumption.
Qed.

(** The request of [get_data] carries the whole query: two calls of
    [get_data] that issue the same request have the same property id, the
    same metrics and dimensions in the same order, and the same dates. *)
Theorem get_data_call_injective :
  forall (self1 self2 : GoogleAnalyticsConnector.t)
         (metrics1 metrics2 dimensions1 dimensions2 : list string)
         (start1 start2 end1 end2 : string),
    get_data_call self1 metrics1 dimensions1 start1 end1
    = get_data_call self2 metrics2 dimensions2 start2 end2 ->
    property_id self1 = property_id self2 /\
    metrics1 = metrics2 /\ dimensions1 = dimensions2 /\
    start1 = start2 /\ end1 = end2.
Proof.
  intros self1 self2 metrics1 metrics2 dimensions1 dimensions2
         start1 start2 end1 end2 H.
  unfold get_data_call, request_body, endpoint in H. cbv zeta in H.
  apply make_request_inj in H as (Hend & _ & H).
  injection H as Hstart Hstop Hmetrics Hdims.
  repeat split; try assumption.
  - simpl in Hend. injection Hend as Hend.
    apply (string_append_inj_r _ _ _ Hend).
  - apply map_named_inj, Hmetrics.
  - apply map_named_inj, Hdims.
Qed.

Lemma get_data_call_injective_witness :
  let self := GoogleAnalyticsConnector.__init__ "token" "42" in
  property_id self = "42" /\ ["sessions"] = ["sessions"] /\ ["date"] = ["date"].
Proof.
  intros self.
  destruct (get_data_call_injective
              self (GoogleAnalyticsConnector.__init__ "other token" "42")
              ["sessions"] ["sessions"] ["date"] ["date"]
              "30daysAgo" "30daysAgo" "today" "today" eq_refl)
    as (H1 & H2 & H3 & _).
  repeat split; assumption.
Defined.

(** The request of [get_website_overview] carries the whole query: two
    calls that issue the same request have the same domain, dates, country
    and granularity. *)
Theorem get_website_overview_call_injective :
  forall (domain1 domain2 start1 start2 end1 end2 : string)
         (country1 country2 granularity1 granularity2 : string),
    SimilarwebConnector.get_website_overview_call
      domain1 start1 end1 country1 granularity1
    = SimilarwebConnector.get_website_overview_call
        domain2 start2 end2 country2 granularity2 ->
    domain1 = domain2 /\ start1 = start2 /\ end1 = end2 /\
    country1 = country2 /\ granularity1 = granularity2.
Proof.
  intros domain1 domain2 start1 start2 end1 end2
         country1 country2 granularity1 granularity2 H.
  unfold SimilarwebConnector.get_website_overview_call in H. cbv zeta in H.
  apply make_request_inj in H as (Hend & H & _).
  injection H as Hstart Hstop Hcountry Hgran.
  repeat split; try assumption.
  simpl in Hend. injection Hend as Hend.
  apply (string_append_inj_r _ _ _ Hend).
Qed.

Lemma get_website_overview_call_injective_witness :
  "example.com" = "example.com" /\ "2024-01" = "2024-01".
Proof.
  destruct (get_website_overview_call_injective
              "example.com" "example.com" "2024-01" "2024-01"
              "2024-02" "2024-02" "world" "world" "monthly" "monthly" eq_refl)
    as (H1 & H2 & _).
  split; assumption.
Defined.

(** ** The calls of [get_data] after the request *)

Lemma trace_bind {A B : Type} (w : collaborators) (p : prog A)
      (f : A -> prog B) :
  trace w (bind p f) =
  trace w p ++ match run w p with
               | Ok a => trace w (f a)
               | Err _ => []
               end.
Proof.
  induction p as [a | e | X c k IH]; simpl; try reflexivity.
  destruct (answer w c); [now rewrite IH | reflexivity].
Qed.

Lemma get_data_response_rows (response : pyval) :
  Py.contains "rows" response = Ok true ->
  get_data_response response =
  match flatten response with
  | Ok flattened_data =>
      (df <- convert_date (pd.of_records flattened_data) ;;
       trigger (_validate_data df))%prog
  | Err e => Raise e
  end.
Proof.
  intros H. unfold get_data_response. rewrite H. cbn [lift bind negb].
  destruct (flatten response) as [recs | e]; cbn [lift bind]; [| reflexivity].
  unfold pd.DataFrame. rewrite as_records_map. reflexivity.
Qed.

Lemma getitem_of_records (records : list dict) (k : string) :
  pd.has_column k (pd.of_records records) = true ->
  pd.getitem (pd.of_records records) k = Ok (map (pd.cell k) records).
Proof.
  intros H. unfold pd.has_column in H. rewrite labels_of_records in H.
  apply mem_In in H. unfold pd.getitem, pd.of_records. cbn [columns].
  rewrite (dict_get_map_keys (fun k => map (pd.cell k) records) _ _ H).
  reflexivity.
Qed.

Lemma get_data_response_calls :
  forall (w : collaborators) (response : pyval) (flattened_data : list dict),
    Py.contains "rows" response = Ok true ->
    flatten response = Ok flattened_data ->
    let df := pd.of_records flattened_data in
    let dates := map (pd.cell "date") flattened_data in
    if Py.mem "date" (pd.union_keys flattened_data)
    then
      match parse_dates w dates with
      | Ok converted =>
          trace w (get_data_response response) =
            [ Issued (to_datetime dates);
              Issued (_validate_data (pd.setitem_series df "date" converted)) ] /\
          run w (get_data_response response) =
            validate_data w (pd.setitem_series df "date" converted)
      | Err e =>
          trace w (get_data_response response) = [Issued (to_datetime dates)] /\
          run w (get_data_response response) = Err e
      end
    else
      trace w (get_data_response response) = [Issued (_validate_data df)] /\
      run w (get_data_response response) = validate_data w df.
Proof.
  intros w response records Hrows Hflat df dates.
  rewrite (get_data_response_rows _ Hrows), Hflat.
  rewrite trace_bind, run_bind. unfold convert_date, pd.has_column.
  rewrite labels_of_records. fold df.
  destruct (Py.mem "date" (pd.union_keys records)) eqn:Hdate.
  - subst df. rewrite getitem_of_records
      by (unfold pd.has_column; now rewrite labels_of_records).
    fold dates. cbn [lift bind trigger run trace answer].
    destruct (parse_dates w dates) as [converted | e]; cbn [run trace answer app].
    + destruct (validate_data w _); split; reflexivity.
    + split; reflexivity.
  - cbn [run trace trigger answer app].
    destruct (validate_data w df); split; reflexivity.
Qed.

(** Once the loop has produced its row dictionaries, [get_data] calls the
    date conversion only if the table has a [date] column, on the [date]
    cells of the rows in order (NaN where a row has none), and then the
    validation, last, on the table with the converted column; when the
    conversion raises the validation is not called; the outcome of
    [get_data] is the outcome of the last call. *)
Theorem get_data_calls_in_order :
  forall (w : collaborators) (response : pyval) (flattened_data : list dict),
    Py.contains "rows" response = Ok true ->
    flatten response = Ok flattened_data ->
    let df := pd.of_records flattened_data in
    let dates := map (pd.cell "date") flattened_data in
    if Py.mem "date" (pd.union_keys flattened_data)
    then
      match parse_dates w dates with
      | Ok converted =>
          trace w (get_data_response response) =
            [ Issued (to_datetime dates);
              Issued (_validate_data (pd.setitem_series df "date" converted)) ] /\
          run w (get_data_response response) =
            validate_data w (pd.setitem_series df "date" converted)
      | Err e =>
          trace w (get_data_response response) = [Issued (to_datetime dates)] /\
          run w (get_data_response response) = Err e
      end
    else
      trace w (get_data_response response) = [Issued (_validate_data df)] /\
      run w (get_data_response response) = validate_data w df.
Proof.
  intros w response flattened_data Hrows Hflat.
  exact (get_data_response_calls w response flattened_data Hrows Hflat).
Qed.

Lemma get_data_calls_in_order_witness :
  let value v := PDict [("value", PStr v)] in
  let name n := PDict [("name", PStr n)] in
  let response :=
    PDict [ ("dimensionHeaders", PList [name "date"]);
            ("metricHeaders", PList [name "sessions"]);
            ("rows",
             PList [PDict [("dimensionValues", PList [value "20240115"]);
                           ("metricValues", PList [value "10"])];
                    PDict [("dimensionValues", PList [value "20240116"]);
                           ("metricValues", PList [value "12"])]]) ] in
  exists df,
    trace (mocked response) (get_data_response response) =
      [ Issued (to_datetime [PStr "20240115"; PStr "20240116"]);
        Issued (_validate_data df) ] /\
    trace (mocked scenario_response) (get_data_response scenario_response) =
      [ Issued (_validate_data
                  (pd.of_records
                     [[ ("source", PStr "google"); ("medium", PStr "organic");
                        ("sessions", PFloat (Float64.of_Z 10));
                        ("users", PFloat (Float64.of_Z 8)) ]])) ].
Proof.
  intros value name response. eexists. split.
  - exact (proj1 (get_data_calls_in_order
                    (mocked response) response
                    [ [("date", PStr "20240115");
                       ("sessions", PFloat (Float64.of_Z 10))];
                      [("date", PStr "20240116");
                       ("sessions", PFloat (Float64.of_Z 12))] ]
                    eq_refl eq_refl)).
  - exact (proj1 (get_data_calls_in_order
                    (mocked scenario_response) scenario_response
                    [[ ("source", PStr "google"); ("medium", PStr "organic");
                       ("sessions", PFloat (Float64.of_Z 10));
                       ("users", PFloat (Float64.of_Z 8)) ]]
                    eq_refl eq_refl)).
Defined.

(** ** One row per entry of [rows], whatever the response *)





(** ** Responses that are not objects *)

(** A response that is not a JSON object never gives rows and reaches no
    further call: [null], a boolean or a number raises [TypeError] at the
    test ['rows' not in response]; an array or a string that does not
    contain ['rows'] gives the empty table, and one that does raises
    [TypeError] at [response['rows']]. *)
Theorem get_data_response_not_object :
  forall (w : collaborators) (response : pyval),
    (forall d, response <> PDict d) ->
    trace w (get_data_response response) = [] /\
    run w (get_data_response response) =
      match response with
      | PList l =>
          if existsb (Py.str_eq "rows") l then Err TypeError else Ok pd.empty
      | PStr s =>
          if Py.is_substring "rows" s then Err TypeError else Ok pd.empty
      | _ => Err TypeError
      end.
Proof.
  intros w response Hobj. unfold get_data_response.
  destruct response as [| b | z | f | s | l | d];
    try (split; reflexivity).
  - cbn [Py.contains lift bind].
    destruct (Py.is_substring "rows" s); split; reflexivity.
  - cbn [Py.contains lift bind].
    destruct (existsb (Py.str_eq "rows") l); split; reflexivity.
  - exfalso. apply (Hobj d). reflexivity.
Qed.

Lemma get_data_response_not_object_witness :
  run (mocked PNone) (get_data_response PNone) = Err TypeError /\
  run (mocked (PList [])) (get_data_response (PList [])) = Ok pd.empty /\
  run (mocked (PList [PStr "rows"])) (get_data_response (PList [PStr "rows"]))
    = Err TypeError.
Proof.
  assert (H1 : forall d, PNone <> PDict d) by (intros d H; discriminate H).
  assert (H2 : forall d, PList [] <> PDict d) by (intros d H; discriminate H).
  assert (H3 : forall d, PList [PStr "rows"] <> PDict d)
    by (intros d H; discriminate H).
  split; [| split].
  - exact (proj2 (get_data_response_not_object (mocked PNone) PNone H1)).
  - exact (proj2 (get_data_response_not_object (mocked (PList [])) _ H2)).
  - exact (proj2 (get_data_response_not_object
                    (mocked (PList [PStr "rows"])) _ H3)).
Defined.

(** ** Headers are read before the rows *)

Lemma mapM_app_error {A B : Type} (f : A -> result B) (good : list A)
      (bad : A) (rest : list A) (bs : list B) (e : exn) :
  mapM f good = Ok bs -> f bad = Err e ->
  mapM f (good ++ bad :: rest) = Err e.
Proof.
  revert bs; induction good as [| a good IH]; intros bs Hgood Hbad; simpl.
  - rewrite Hbad. reflexivity.
  - simpl in Hgood. destruct (f a) as [b |]; [| discriminate Hgood].
    cbn [rbind] in *.
    destruct (mapM f good) as [bs' |]; [| discriminate Hgood].
    rewrite (IH bs' eq_refl Hbad). reflexivity.
Qed.

(** A dimension header object without a [name] makes [get_data] raise
    [KeyError('name')] whatever [rows] holds, an empty list included: the
    header names are collected before the first row is looked at, so a
    response with no row at all is still rejected for its headers. *)
Theorem get_data_header_without_name :
  forall (w : collaborators) (d : dict) (rows : pyval)
         (good rest : list pyval) (names : list pyval) (header : dict),
    Py.dict_get "rows" d = Some rows ->
    Py.dict_get "dimensionHeaders" d
      = Some (PList (good ++ PDict header :: rest)) ->
    mapM (fun h => Py.getitem h "name") good = Ok names ->
    Py.dict_get "name" header = None ->
    get_data_response (PDict d) = Raise (KeyError "name") /\
    run w (get_data_response (PDict d)) = Err (KeyError "name") /\
    trace w (get_data_response (PDict d)) = [].
Proof.
  intros w d rows good rest names header Hrows Hheaders Hgood Hname.
  assert (H : get_data_response (PDict d) = Raise (KeyError "name")).
  { rewrite get_data_response_rows
      by (cbn [Py.contains]; now rewrite mem_keys_dict_get, Hrows).
    unfold flatten. cbn [Py.getitem]. rewrite Hrows. cbn [rbind].
    unfold header_names at 1. cbn [Py.get]. rewrite Hheaders.
    cbn [rbind Py.iter].
    rewrite (mapM_app_error _ _ _ _ _ (KeyError "name") Hgood);
      [reflexivity |].
    cbn [Py.getitem]. now rewrite Hname. }
  rewrite H. repeat split.
Qed.

Lemma get_data_header_without_name_witness :
  let d :=
    [ ("dimensionHeaders",
       PList [PDict [("name", PStr "date")]; PDict [("title", PStr "x")]]);
      ("rows", PList []) ] in
  run (mocked (PDict d)) (get_data_response (PDict d)) = Err (KeyError "name").
Proof.
  intros d.
  exact (proj1 (proj2 (get_data_header_without_name
                         (mocked (PDict d)) d (PList [])
                         [PDict [("name", PStr "date")]] []
                         [PStr "date"] [("title", PStr "x")]
                         eq_refl eq_refl eq_refl eq_refl))).
Defined.

(** ** Names bound more than once *)

Lemma dict_get_app_first {V : Type} (k : string) (d1 d2 : list (string * V)) :
  Py.dict_get k (d1 ++ d2) =
  match Py.dict_get k d1 with
  | Some v => Some v
  | None => Py.dict_get k d2
  end.
Proof.
  induction d1 as [| [k' v'] d1 IH]; simpl; [reflexivity |].
  destruct (String.eqb k k'); [reflexivity | exact IH].
Qed.

Lemma dict_get_fold_store (l : dict) :
  forall (acc : dict) (k : string),
    Py.dict_get k (fold_left Report.store l acc) =
    match Py.dict_get k (rev l) with
    | Some v => Some v
    | None => Py.dict_get k acc
    end.
Proof.
  induction l as [| [k0 v0] l IH]; intros acc k; simpl; [reflexivity |].
  rewrite IH, dict_get_app_first. unfold Report.store at 1. cbn [fst snd].
  destruct (Py.dict_get k (rev l)) as [v |]; [reflexivity |].
  simpl. destruct (String.eqb_spec k k0) as [-> | Hne].
  - apply dict_get_dict_set_same.
  - apply dict_get_dict_set_other, Hne.
Qed.

(** In a row dictionary of the loop a name reads back the value bound to
    it last: whether or not header names repeat, looking a name up gives
    the first binding met when the bindings of the row are gone through
    from the last metric back to the first dimension.  So a metric
    replaces a dimension of the same name, and a later header an earlier
    one of its kind. *)
Theorem get_data_last_binding_wins :
  forall (response : pyval) (r : Report.t) (flattened_data : list dict),
    Report.read response = Some r ->
    Report.within r = true ->
    flatten response = Ok flattened_data ->
    Forall2
      (fun row row_data =>
         exists metrics,
           mapM Py.float_of_str (snd row) = Ok metrics /\
           forall name,
             Py.dict_get name row_data =
             Py.dict_get name (rev (Report.bindings r row metrics)))
      (Report.rows r) flattened_data.
Proof.
  intros response r records Hread Hwithin Hflat.
  rewrite (flatten_read _ _ Hread Hwithin) in Hflat.
  apply mapM_Forall2 in Hflat.
  apply (Forall2_impl_In _ _ _ _ Hflat). intros row rec _ Hrow.
  pose proof (row_data_outcome r row) as H. rewrite Hrow in H.
  destruct H as (_ & fs & Hfs & _ & ->).
  exists fs. split; [exact Hfs |]. intros name.
  rewrite dict_get_fold_store.
  destruct (Py.dict_get name (rev (Report.bindings r row fs))); reflexivity.
Qed.

Lemma get_data_last_binding_wins_witness :
  let value v := PDict [("value", PStr v)] in
  let name n := PDict [("name", PStr n)] in
  let response :=
    PDict [ ("dimensionHeaders", PList [name "country"]);
            ("metricHeaders", PList [name "country"; name "country"]);
            ("rows",
             PList [PDict [("dimensionValues", PList [value "FR"]);
                           ("metricValues", PList [value "3"; value "4"])]]) ] in
  exists row_data,
    flatten response = Ok [row_data] /\
    Py.dict_get "country" row_data = Some (PFloat (Float64.of_Z 4)).
Proof.
  intros value name response.
  pose proof (get_data_last_binding_wins
                response
                {| Report.dimension_headers := ["country"];
                   Report.metric_headers := ["country"; "country"];
                   Report.rows := [(["FR"], ["3"; "4"])] |}
                [[("country", PFloat (Float64.of_Z 4))]]
                eq_refl eq_refl eq_refl) as H.
  inversion H as [| row rec rows recs (fs & Hfs & Hget) _]; subst.
  eexists. split; [reflexivity |].
  rewrite Hget. injection Hfs as <-. reflexivity.
Defined.

(** ** Rows shorter than the headers *)

Lemma dict_get_absent {V : Type} (k : string) (d : list (string * V)) :
  ~ In k (Py.keys d) -> Py.dict_get k d = None.
Proof.
  intros H. apply mem_not_In in H. rewrite mem_keys_dict_get in H.
  destruct (Py.dict_get k d); [discriminate H | reflexivity].
Qed.

Lemma keys_combine_nth {V : Type} (ks : list string) (vs : list V) (k : string) :
  In k (Py.keys (combine ks vs)) ->
  exists j, j < List.length vs /\ nth_error ks j = Some k.
Proof.
  revert vs; induction ks as [| k0 ks IH]; intros [| v vs]; simpl; try tauto.
  intros [-> | H].
  - exists 0. split; [lia | reflexivity].
  - destruct (IH vs H) as (j & Hj & Hn). exists (S j). split; [lia | exact Hn].
Qed.

Lemma combine_beyond {V : Type} (ks : list string) (vs : list V)
      (j : nat) (k : string) :
  NoDup ks -> nth_error ks j = Some k -> List.length vs <= j ->
  ~ In k (Py.keys (combine ks vs)).
Proof.
  intros Hnd Hk Hlen Hin.
  destruct (keys_combine_nth _ _ _ Hin) as (j' & Hj' & Hk').
  assert (j' = j).
  { apply (proj1 (NoDup_nth_error ks) Hnd).
    - apply nth_error_Some. rewrite Hk'. discriminate.
    - now rewrite Hk, Hk'. }
  lia.
Qed.

Lemma bindings_lacks (r : Report.t) (row : list string * list string)
      (fs : list Float64.float) (name : string) :
  NoDup (Report.column_names r) ->
  List.length fs = List.length (snd row) ->
  lacks r row name ->
  ~ In name (Py.keys (Report.bindings r row fs)).
Proof.
  intros Hnd Hfs Hlacks Hin.
  destruct (NoDup_app_inv _ _ Hnd) as (Hd & Hm & Hdisj).
  unfold Report.bindings in Hin. rewrite keys_app in Hin.
  apply in_app_or in Hin.
  destruct Hlacks as [(j & Hj & Hlen) | (j & Hj & Hlen)];
    destruct Hin as [Hin | Hin].
  - apply (combine_beyond _ (map PStr (fst row)) j name Hd Hj);
      [now rewrite length_map | exact Hin].
  - apply keys_combine_incl in Hin.
    apply (Hdisj name); [eapply nth_error_In, Hj | exact Hin].
  - apply keys_combine_incl in Hin.
    apply (Hdisj name); [exact Hin | eapply nth_error_In, Hj].
  - apply (combine_beyond _ (map PFloat fs) j name Hm Hj);
      [rewrite length_map; lia | exact Hin].
Qed.

Lemma at_of_records_no_column (records : list dict) (i : nat) (k : string) :
  ~ In k (pd.union_keys records) -> at_ (pd.of_records records) i k = None.
Proof.
  intros H. unfold at_, pd.of_records. cbn [columns].
  rewrite dict_get_absent; [reflexivity |].
  unfold Py.keys. rewrite map_map. cbn [fst]. now rewrite map_id.
Qed.

(** A row with fewer values than there are headers is no error: when the
    header names are distinct, the returned table reads NaN in that row
    under every header the row has no value for (any header but [date]),
    provided some other row gave the table that column; if no row did, the
    table has no such column. *)
Theorem get_data_short_row_reads_nan :
  forall (w : collaborators) (response : pyval) (r : Report.t)
         (i : nat) (row : list string * list string) (name : string),
    Report.read response = Some r ->
    Report.within r = true ->
    Report.distinct (Report.column_names r) = true ->
    validation_contract w ->
    nth_error (Report.rows r) i = Some row ->
    lacks r row name ->
    name <> "date" ->
    match run w (get_data_response response) with
    | Ok df =>
        at_ df i name =
        if pd.has_column name df then Some (PFloat Float64.nan) else None
    | Err e =>
        (e = ValueError /\ Report.all_numeric r = false) \/
        (exists dates, parse_dates w dates = Err e) \/
        e = ValidationError
    end.
Proof.
  intros w response r i row name Hread Hwithin Hdistinct Hvalid Hrow Hlacks
         Hdate.
  pose proof (get_data_response_outcome w response r Hread Hwithin Hvalid) as H.
  destruct (run w (get_data_response response)) as [df | e]; [| exact H].
  destruct H as (records & Hrec & Hlabels & _ & Hat).
  apply distinct_NoDup in Hdistinct.
  rewrite (Hat i name Hdate). unfold pd.has_column. rewrite Hlabels.
  destruct (Py.mem name (pd.union_keys records)) eqn:Hmem.
  - rewrite at_of_records by (apply mem_In, Hmem).
    destruct (Forall2_nth_error _ _ _ (mapM_Forall2 _ _ _ Hrec) i row Hrow)
      as (rec & Hreci & Hrd).
    rewrite Hreci. cbn [option_map]. f_equal.
    pose proof (row_data_outcome r row) as Hout. rewrite Hrd in Hout.
    destruct Hout as (_ & fs & _ & Hlen & ->).
    unfold pd.cell. rewrite dict_get_fold_store.
    rewrite !dict_get_absent; [reflexivity | simpl; tauto |].
    unfold Py.keys. rewrite map_rev. intros Hin. apply in_rev in Hin.
    exact (bindings_lacks r row fs name Hdistinct Hlen Hlacks Hin).
  - apply at_of_records_no_column, mem_not_In, Hmem.
Qed.

Lemma get_data_short_row_reads_nan_witness :
  let value v := PDict [("value", PStr v)] in
  let name n := PDict [("name", PStr n)] in
  let response :=
    PDict [ ("dimensionHeaders", PList [name "country"]);
            ("metricHeaders", PList [name "sessions"; name "users"]);
            ("rows",
             PList [PDict [("dimensionValues", PList [value "FR"]);
                           ("metricValues", PList [value "3"; value "2"])];
                    PDict [("dimensionValues", PList [value "DE"]);
                           ("metricValues", PList [value "5"])]]) ] in
  let w := {| make_request := fun _ _ _ => Ok response;
              parse_dates := fun dates => Ok dates;
              validate_data := fun df => Ok df |} in
  exists df,
    run w (get_data_response response) = Ok df /\
    at_ df 1 "users" = Some (PFloat Float64.nan) /\
    at_ df 0 "users" = Some (PFloat (Float64.of_Z 2)).
Proof.
  intros value name response w.
  assert (Hvalid : validation_contract w) by (intros df; now left).
  assert (Hlacks : lacks {| Report.dimension_headers := ["country"];
                            Report.metric_headers := ["sessions"; "users"];
                            Report.rows := [(["FR"], ["3"; "2"]);
                                            (["DE"], ["5"])] |}
                         (["DE"], ["5"]) "users").
  { right. exists 1. split; [reflexivity | simpl; lia]. }
  assert (Hne : "users" <> "date") by discriminate.
  pose proof (get_data_short_row_reads_nan
                w response _ 1 (["DE"], ["5"]) "users"
                eq_refl eq_refl eq_refl Hvalid eq_refl Hlacks Hne) as H.
  destruct (run w (get_data_response response)) as [df | e] eqn:Hrun;
    [| vm_compute in Hrun; discriminate Hrun].
  exists df. split; [reflexivity |].
  vm_compute in Hrun. injection Hrun as <-. split; [exact H | reflexivity].
Defined.

(** ** The dates handed to the conversion *)

Lemma date_cells (r : Report.t) (j : nat)
      (rows : list (list string * list string)) (records : list dict) :
  NoDup (Report.column_names r) ->
  nth_error (Report.dimension_headers r) j = Some "date" ->
  forallb (Report.row_matching r) rows = true ->
  Forall2 (fun row rec => Report.row_data r row = Ok rec) rows records ->
  map (pd.cell "date") records
  = map (fun row => PStr (nth j (fst row) "")) rows.
Proof.
  intros Hnd Hj Hm H. induction H as [| row rec rows records Hrow _ IH];
    [reflexivity |].
  cbn [forallb] in Hm. apply andb_true_iff in Hm as [Hm1 Hm2].
  cbn [map]. rewrite (IH Hm2). f_equal.
  destruct (bindings_lookup r row rec Hm1 Hnd Hrow) as [Hdim _].
  assert (Hlen : j < List.length (fst row)).
  { apply andb_true_iff in Hm1 as [H1 _]. apply Nat.eqb_eq in H1.
    rewrite H1. apply nth_error_Some. rewrite Hj. discriminate. }
  destruct (nth_error_in_range _ _ Hlen) as [v Hv].
  unfold pd.cell. rewrite (Hdim j "date" v Hj Hv).
  now rewrite (nth_error_nth _ _ _ Hv).
Qed.

(** On a report with one value per header in every row, distinct header
    names and numeric metric values: when [date] is a dimension header and
    there is a row, the date conversion is called exactly once, on the
    [date] strings of the rows in order, and its answer, over the rows,
    becomes the [date] column of the table the validation receives; when
    no header is named [date], the conversion is never called and the
    validation is the only call. *)
Theorem get_data_converts_report_dates :
  forall (w : collaborators) (response : pyval) (r : Report.t),
    Report.read response = Some r ->
    Report.matching r = true ->
    Report.distinct (Report.column_names r) = true ->
    Report.all_numeric r = true ->
    (forall j,
        nth_error (Report.dimension_headers r) j = Some "date" ->
        Report.rows r <> [] ->
        let dates := map (fun row => PStr (nth j (fst row) "")) (Report.rows r) in
        match parse_dates w dates with
        | Ok converted =>
            exists df,
              trace w (get_data_response response) =
                [Issued (to_datetime dates); Issued (_validate_data df)] /\
              pd.getitem df "date"
                = Ok (pd.align (List.length (Report.rows r)) converted) /\
              run w (get_data_response response) = validate_data w df
        | Err e =>
            trace w (get_data_response response) = [Issued (to_datetime dates)] /\
            run w (get_data_response response) = Err e
        end) /\
    (~ In "date" (Report.column_names r) ->
     exists df,
       trace w (get_data_response response) = [Issued (_validate_data df)] /\
       run w (get_data_response response) = validate_data w df).
Proof.
  intros w response r Hread Hmatch Hdistinct Hnum.
  apply distinct_NoDup in Hdistinct.
  pose proof (flatten_read _ _ Hread (matching_within _ Hmatch)) as Hflat.
  pose proof (mapM_row_data_outcome r (Report.rows r)) as Hout.
  destruct (mapM (Report.row_data r) (Report.rows r)) as [records |] eqn:Hrec;
    [| destruct Hout as [_ Hout]; unfold Report.all_numeric in Hnum;
       congruence].
  clear Hout.
  destruct (records_keys r _ _ Hmatch Hdistinct Hrec) as [Hlen Hkeys].
  pose proof (get_data_response_calls w response records
                (read_contains_rows _ _ Hread) Hflat) as Hcalls.
  cbv zeta in Hcalls. split.
  - intros j Hj Hrows dates.
    assert (Hunion : pd.union_keys records = Report.column_names r).
    { destruct records as [| d records].
      - destruct (Report.rows r); [contradiction | discriminate Hlen].
      - apply (union_keys_same _ _ _ Hdistinct Hkeys). }
    assert (Hmem : Py.mem "date" (pd.union_keys records) = true).
    { apply mem_In. rewrite Hunion. apply in_or_app. left.
      eapply nth_error_In, Hj. }
    rewrite Hmem in Hcalls.
    rewrite (date_cells r j _ _ Hdistinct Hj Hmatch (mapM_Forall2 _ _ _ Hrec))
      in Hcalls.
    fold dates in Hcalls.
    destruct (parse_dates w dates) as [converted | e]; [| exact Hcalls].
    destruct Hcalls as [Htrace Hrun]. eexists. split; [exact Htrace |].
    split; [| exact Hrun].
    unfold pd.getitem, pd.setitem_series, pd.of_records. cbn [columns index].
    rewrite dict_get_dict_set_same, Hlen. reflexivity.
  - intros Hnodate.
    assert (Hmem : Py.mem "date" (pd.union_keys records) = false).
    { apply mem_not_In. intros Hin. apply Hnodate.
      destruct records as [| d records]; [contradiction Hin |].
      now rewrite (union_keys_same _ _ _ Hdistinct Hkeys) in Hin. }
    rewrite Hmem in Hcalls. eexists. exact Hcalls.
Qed.

Lemma get_data_converts_report_dates_witness :
  let value v := PDict [("value", PStr v)] in
  let name n := PDict [("name", PStr n)] in
  let response :=
    PDict [ ("dimensionHeaders", PList [name "country"; name "date"]);
            ("metricHeaders", PList [name "sessions"]);
            ("rows",
             PList [PDict [("dimensionValues",
                            PList [value "FR"; value "20240115"]);
                           ("metricValues", PList [value "10"])];
                    PDict [("dimensionValues",
                            PList [value "DE"; value "20240116"]);
                           ("metricValues", PList [value "12"])]]) ] in
  exists df,
    trace (mocked response) (get_data_response response) =
      [ Issued (to_datetime [PStr "20240115"; PStr "20240116"]);
        Issued (_validate_data df) ] /\
    pd.getitem df "date" = Ok [PStr "20240115"; PStr "20240116"].
Proof.
  intros value name response.
  destruct (get_data_converts_report_dates
              (mocked response) response
              {| Report.dimension_headers := ["country"; "date"];
                 Report.metric_headers := ["sessions"];
                 Report.rows := [(["FR"; "20240115"], ["10"]);
                                 (["DE"; "20240116"], ["12"])] |}
              eq_refl eq_refl eq_refl eq_refl) as [H _].
  assert (Hrows : [(["FR"; "20240115"], ["10"]); (["DE"; "20240116"], ["12"])]
                  <> @nil (list string * list string)) by discriminate.
  destruct (H 1 eq_refl Hrows) as (df & Htrace & Hdate & _).
  exists df. split; [exact Htrace | exact Hdate].
Defined.

(** ** The website overview: missing fields *)

Lemma run_get_website_overview w self domain start_date end_date
      country granularity :
  run w (SimilarwebConnector.get_website_overview
           self domain start_date end_date country granularity) =
  match answer w (SimilarwebConnector.get_website_overview_call
                    domain start_date end_date
                    (default "world" country)
                    (default "monthly" granularity)) with
  | Ok response =>
      run w (SimilarwebConnector.get_website_overview_response domain response)
  | Err e => Err e
  end.
Proof. reflexivity. Qed.

Lemma trace_get_website_overview w self domain start_date end_date
      country granularity :
  trace w (SimilarwebConnector.get_website_overview
             self domain start_date end_date country granularity) =
  let c := SimilarwebConnector.get_website_overview_call
             domain start_date end_date
             (default "world" country) (default "monthly" granularity) in
  Issued c ::
  match answer w c with
  | Ok response =>
      trace w (SimilarwebConnector.get_website_overview_response domain response)
  | Err _ => []
  end.
Proof. reflexivity. Qed.

(** When the response of the request has no [visits] key,
    [get_website_overview] returns the empty table, whatever else the
    response holds: no column, not even [domain], no error, and the
    request is its only call (no date conversion, no validation). *)
Theorem get_website_overview_missing_visits :
  forall (w : collaborators) (self : SimilarwebConnector.t)
         (domain start_date end_date : string)
         (country granularity : option string) (d : dict),
    answer w (SimilarwebConnector.get_website_overview_call
                domain start_date end_date
                (default "world" country) (default "monthly" granularity))
      = Ok (PDict d) ->
    Py.dict_get "visits" d = None ->
    run w (SimilarwebConnector.get_website_overview
             self domain start_date end_date country granularity)
      = Ok pd.empty /\
    pd.labels pd.empty = [] /\
    trace w (SimilarwebConnector.get_website_overview
               self domain start_date end_date country granularity)
      = [Issued (SimilarwebConnector.get_website_overview_call
                   domain start_date end_date
                   (default "world" country) (default "monthly" granularity))].
Proof.
  intros w self domain start_date end_date country granularity d Hanswer Hd.
  rewrite run_get_website_overview, trace_get_website_overview. cbv zeta.
  rewrite Hanswer, (get_website_overview_without_visits domain d Hd).
  repeat split.
Qed.

Lemma get_website_overview_missing_visits_witness :
  let d := [("meta", PDict [("status", PStr "Success")])] in
  run (mocked (PDict d))
      (SimilarwebConnector.get_website_overview
         (SimilarwebConnector.__init__ "key") "example.com" "2024-01" "2024-02"
         None (Some "daily"))
  = Ok pd.empty.
Proof.
  intros d.
  exact (proj1 (get_website_overview_missing_visits
                  (mocked (PDict d)) (SimilarwebConnector.__init__ "key")
                  "example.com" "2024-01" "2024-02" None (Some "daily") d
                  eq_refl eq_refl)).
Defined.

Lemma fold_add_key_In (ks : list string) :
  forall acc k, In k (fold_left pd.add_key ks acc) <-> In k acc \/ In k ks.
Proof.
  induction ks as [| k0 ks IH]; intros acc k; simpl; [tauto |].
  rewrite IH. unfold pd.add_key.
  destruct (Py.mem k0 acc) eqn:Hm.
  - apply mem_In in Hm. split; [tauto |].
    intros [H | [<- | H]]; tauto.
  - rewrite in_app_iff. simpl. tauto.
Qed.

Lemma union_keys_In (records : list dict) (k : string) :
  In k (pd.union_keys records) <->
  exists d, In d records /\ In k (Py.keys d).
Proof.
  unfold pd.union_keys.
  assert (H : forall acc,
             In k (fold_left (fun acc d => fold_left pd.add_key (Py.keys d) acc)
                             records acc)
             <-> In k acc \/ exists d, In d records /\ In k (Py.keys d)).
  { induction records as [| d records IH]; intros acc; simpl.
    - split; [tauto | intros [H | (d & [] & _)]; exact H].
    - rewrite IH, fold_add_key_In. split.
      + intros [[H | H] | (d' & Hd' & Hk)].
        * now left.
        * right. exists d. split; [now left | exact H].
        * right. exists d'. split; [now right | exact Hk].
      + intros [H | (d' & [<- | Hd'] & Hk)].
        * left. now left.
        * left. now right.
        * right. exists d'. now split. }
  rewrite H. simpl. tauto.
Qed.

(** When [visits] is a list of entries none of which has a [date] key (an
    empty list included), [get_website_overview] raises [KeyError('date')]
    at the date conversion of line 223: it returns no table and calls
    neither the conversion nor the validation. *)
Theorem get_website_overview_without_date :
  forall (w : collaborators) (self : SimilarwebConnector.t)
         (domain start_date end_date : string)
         (country granularity : option string)
         (d : dict) (visits : list pyval) (entries : list dict),
    answer w (SimilarwebConnector.get_website_overview_call
                domain start_date end_date
                (default "world" country) (default "monthly" granularity))
      = Ok (PDict d) ->
    Py.dict_get "visits" d = Some (PList visits) ->
    pd.as_records visits = Some entries ->
    Forall (fun entry => Py.dict_get "date" entry = None) entries ->
    run w (SimilarwebConnector.get_website_overview
             self domain start_date end_date country granularity)
      = Err (KeyError "date") /\
    trace w (SimilarwebConnector.get_website_overview
               self domain start_date end_date country granularity)
      = [Issued (SimilarwebConnector.get_website_overview_call
                   domain start_date end_date
                   (default "world" country) (default "monthly" granularity))].
Proof.
  intros w self domain start_date end_date country granularity d visits entries
         Hanswer Hvisits Hentries Hnodate.
  rewrite run_get_website_overview, trace_get_website_overview. cbv zeta.
  rewrite Hanswer.
  assert (H : SimilarwebConnector.get_website_overview_response domain (PDict d)
              = Raise (KeyError "date")).
  { unfold SimilarwebConnector.get_website_overview_response.
    cbn [Py.contains]. rewrite mem_keys_dict_get, Hvisits.
    cbn [lift bind negb Py.getitem]. rewrite Hvisits. cbn [lift bind].
    unfold pd.DataFrame. rewrite Hentries. cbn [lift bind].
    unfold pd.getitem, pd.setitem_scalar. cbn [columns index].
    rewrite dict_get_dict_set_other by discriminate.
    rewrite dict_get_absent; [reflexivity |].
    change (~ In "date" (pd.labels (pd.of_records entries))).
    rewrite labels_of_records, union_keys_In.
    intros (entry & Hin & Hk). rewrite Forall_forall in Hnodate.
    apply mem_In in Hk. rewrite mem_keys_dict_get, (Hnodate entry Hin) in Hk.
    discriminate Hk. }
  rewrite H. split; reflexivity.
Qed.

Lemma get_website_overview_without_date_witness :
  let visits := [PDict [("visits", PFloat (Float64.of_Z 120))];
                 PDict [("visits", PFloat (Float64.of_Z 80))]] in
  let d := [("visits", PList visits)] in
  run (mocked (PDict d))
      (SimilarwebConnector.get_website_overview
         (SimilarwebConnector.__init__ "key") "example.com" "2024-01" "2024-02"
         None None)
  = Err (KeyError "date").
Proof.
  intros visits d.
  refine (proj1 (get_website_overview_without_date
                   (mocked (PDict d)) (SimilarwebConnector.__init__ "key")
                   "example.com" "2024-01" "2024-02" None None d visits
                   [[("visits", PFloat (Float64.of_Z 120))];
                    [("visits", PFloat (Float64.of_Z 80))]]
                   eq_refl eq_refl eq_refl _)).
  repeat constructor.
Defined.

(** ** The website overview: the table *)

Lemma get_website_overview_rows_witness :
  let visits := [PDict [("date", PStr "2024-01-01");
                        ("visits", PFloat (Float64.of_Z 120))];
                 PDict [("date", PStr "2024-02-01");
                        ("visits", PFloat (Float64.of_Z 80))]] in
  let d := [("meta", PDict []); ("visits", PList visits)] in
  exists df,
    run (mocked (PDict d))
        (SimilarwebConnector.get_website_overview_response "example.com"
                                                           (PDict d)) = Ok df /\
    pd.len df = 2 /\
    pd.getitem df "domain" = Ok [PStr "example.com"; PStr "example.com"].
Proof.
  intros visits d.
  assert (Hvalid : validation_contract (mocked (PDict d))).
  { intros df. simpl. destruct (consistent df); [left | right]; reflexivity. }
  assert (Hdate : In "date"
                     (pd.union_keys
                        [[("date", PStr "2024-01-01");
                          ("visits", PFloat (Float64.of_Z 120))];
                         [("date", PStr "2024-02-01");
                          ("visits", PFloat (Float64.of_Z 80))]]))
    by (left; reflexivity).
  pose proof (get_website_overview_rows
                (mocked (PDict d)) "example.com" d visits _
                eq_refl eq_refl Hdate Hvalid) as H.
  destruct (run (mocked (PDict d))
                (SimilarwebConnector.get_website_overview_response
                   "example.com" (PDict d))) as [df | e] eqn:Hrun;
    [| vm_compute in Hrun; discriminate Hrun].
  exists df. split; [reflexivity |].
  destruct H as (Hlen & Hdomain & _). split; [exact Hlen | exact Hdomain].
Defined.




(** ** A metric that is not numeric, at a position without header *)

Lemma add_metrics_not_numeric (names : list string) (good : list string) :
  forall (values : list pyval) (bad : string) (rest : list string)
         (i : nat) (row_data : dict),
    Report.traverse (Report.field_of "value") values
      = Some (good ++ bad :: rest) ->
    forallb Report.numeric good = true ->
    Report.numeric bad = false ->
    i + List.length good <= List.length names ->
    add_metrics (map PStr names) i values row_data = Err ValueError.
Proof.
  induction good as [| s good IH];
    intros values bad rest i row_data Htr Hgood Hbad Hlen.
  - destruct values as [| v values]; [discriminate Htr |].
    apply traverse_cons in Htr as (s & ms & Hv & _ & Heq).
    simpl in Heq. injection Heq as <- _.
    cbn [add_metrics]. rewrite (field_of_getitem _ _ _ Hv).
    cbn [rbind Py.float]. unfold Report.numeric in Hbad.
    destruct (Py.float_of_str bad) eqn:He; [discriminate Hbad |].
    now rewrite (float_of_str_error _ _ He).
  - destruct values as [| v values]; [discriminate Htr |].
    apply traverse_cons in Htr as (s' & ms & Hv & Htr & Heq).
    simpl in Heq. injection Heq as <- <-.
    cbn [forallb] in Hgood. apply andb_true_iff in Hgood as [Hs Hgood].
    simpl in Hlen.
    destruct (nth_error_in_range names i) as [n Hn]; [lia |].
    cbn [add_metrics]. rewrite (field_of_getitem _ _ _ Hv).
    cbn [rbind Py.float]. unfold Report.numeric in Hs.
    destruct (Py.float_of_str s); [| discriminate Hs]. cbn [rbind].
    rewrite (list_getitem_names _ _ _ Hn). cbn [rbind Py.hashable_key].
    apply (IH values bad rest (S i) _ Htr Hgood Hbad). lia.
Qed.

(** In the assignment of line 102 the value is converted before the header
    is looked up: when the first metric value of the first row that is not
    numeric stands at a position where the earlier ones have a header,
    [get_data] raises the [ValueError] of [float], also when that position
    itself is past the metric headers (where a numeric value would have
    raised [IndexError]). *)
Theorem get_data_conversion_before_subscript :
  forall (w : collaborators) (response : pyval) (r : Report.t)
         (row : list string * list string)
         (rows : list (list string * list string))
         (good : list string) (bad : string) (rest : list string),
    Report.read response = Some r ->
    Report.rows r = row :: rows ->
    List.length (fst row) <= List.length (Report.dimension_headers r) ->
    snd row = good ++ bad :: rest ->
    forallb Report.numeric good = true ->
    Report.numeric bad = false ->
    List.length good <= List.length (Report.metric_headers r) ->
    get_data_response response = Raise ValueError /\
    run w (get_data_response response) = Err ValueError.
Proof.
  intros w response r [ds ms] rows good bad rest Hread Hrows Hd Hms Hgood Hbad
         Hlen.
  cbn [fst snd] in *. subst ms.
  assert (H : flatten response = Err ValueError).
  { destruct (flatten_read_rows _ _ Hread) as (rs & Htr & ->).
    rewrite Hrows in Htr.
    destruct rs as [| p rs]; [discriminate Htr |].
    apply traverse_cons in Htr as (row' & rows' & Hp & _ & Heq).
    injection Heq as <- _.
    cbn [mapM].
    apply row_of_inv in Hp as (d & -> & Hds & Hmets).
    apply strings_get in Hds as (dvs & Hgd & Htd).
    apply strings_get in Hmets as (mvs & Hgm & Htm).
    unfold flatten_row. rewrite Hgd. cbn [rbind Py.iter].
    rewrite (add_dimensions_spec _ _ _ 0 [] Htd) by (simpl; lia).
    cbn [rbind]. rewrite Hgm. cbn [rbind Py.iter].
    rewrite (add_metrics_not_numeric _ _ _ _ _ 0 _ Htm Hgood Hbad)
      by (simpl; lia).
    reflexivity. }
  rewrite (get_data_response_read _ _ Hread), H. split; reflexivity.
Qed.

Lemma get_data_conversion_before_subscript_witness :
  let value v := PDict [("value", PStr v)] in
  let response :=
    PDict [ ("rows", PList [PDict [("metricValues", PList [value "n/a"])]]) ] in
  run (mocked response) (get_data_response response) = Err ValueError.
Proof.
  intros value response.
  refine (proj2 (get_data_conversion_before_subscript
                   (mocked response) response
                   {| Report.dimension_headers := [];
                      Report.metric_headers := [];
                      Report.rows := [([], ["n/a"])] |}
                   ([], ["n/a"]) [] [] "n/a" []
                   eq_refl eq_refl _ eq_refl eq_refl eq_refl _));
    simpl; lia.
Defined.
